(** * Agentic RAG demo: the prediction service and its Streamlit front end

    A shallow embedding of [server.py] (FastAPI endpoints over a two-task
    CrewAI crew) and of the submission path of [app.py] (Streamlit script),
    with the properties of the request/response contract proved about it.

    Python strings are sequences of Unicode code points, so a [str] is a list
    of code points; effects (the language-model calls of the server, the HTTP
    requests and rendered elements of the front end) are threaded through a
    state-and-exception monad. *)

From Stdlib Require Import List String Ascii NArith Bool Lia DecimalString.
Import ListNotations.

Set Implicit Arguments.

(** ** Python strings *)

Module PyStr.

Definition char := N.
Definition str := list char.

(** An ASCII literal of the source, as code points. *)
Definition lit (x : string) : str :=
  map N_of_ascii (list_ascii_of_string x).

Definition dq : str := [34%N].
Definition nl : str := [10%N].

Fixpoint eqb (a b : str) : bool :=
  match a, b with
  | [], [] => true
  | x :: a', y :: b' => N.eqb x y && eqb a' b'
  | _, _ => false
  end.

(** [bool(s)]: a string is truthy when it is not empty. *)
Definition truthy (s : str) : bool :=
  match s with [] => false | _ :: _ => true end.

(** [c.isspace()] for one code point: the characters [str.strip()] removes
    when called without argument. *)
Definition isspace (c : char) : bool :=
  ((9 <=? c) && (c <=? 13)
   || (28 <=? c) && (c <=? 32)
   || (c =? 133) || (c =? 160) || (c =? 5760)
   || (8192 <=? c) && (c <=? 8202)
   || (c =? 8232) || (c =? 8233) || (c =? 8239) || (c =? 8287)
   || (c =? 12288))%N.

Fixpoint lstrip (s : str) : str :=
  match s with
  | [] => []
  | c :: s' => if isspace c then lstrip s' else s
  end.

Definition rstrip (s : str) : str := rev (lstrip (rev s)).

Definition strip (s : str) : str := rstrip (lstrip s).

Fixpoint startswith (s prefix : str) : bool :=
  match prefix, s with
  | [], _ => true
  | p :: prefix', c :: s' => N.eqb p c && startswith s' prefix'
  | _ :: _, [] => false
  end.

(** [s.replace(old, new)] for a non-empty [old]: leftmost occurrences, not
    overlapping.  [skip] counts the characters of a match still to drop. *)
Fixpoint replace_from (old new : str) (skip : nat) (s : str) : str :=
  match s with
  | [] => []
  | c :: s' =>
      match skip with
      | S k => replace_from old new k s'
      | O =>
          if startswith s old
          then new ++ replace_from old new (List.length old - 1) s'
          else c :: replace_from old new 0 s'
      end
  end.

Definition replace (s old new : str) : str := replace_from old new 0 s.

(** [str(n)] for a natural number. *)
Definition of_N (n : N) : str :=
  lit (NilEmpty.string_of_uint (N.to_uint n)).

End PyStr.

Import PyStr.

(** ** Exceptions *)

(** The exception classes the two programs and their libraries distinguish:
    Python's built-ins, those of [requests.exceptions], and Streamlit's
    script-control exception raised by [st.stop()]. *)
Inductive ExcClass :=
| BaseException | Exception | KeyboardInterrupt | SystemExit
| OSError | ValueError | AttributeError | AssertionError | RuntimeError
| RequestException | HTTPError | ConnectionError | Timeout
| ConnectTimeout | ReadTimeout | JSONDecodeError
| ScriptControlException | StopException.

Definition ExcClass_eqb (a b : ExcClass) : bool :=
  match a, b with
  | BaseException, BaseException | Exception, Exception
  | KeyboardInterrupt, KeyboardInterrupt | SystemExit, SystemExit
  | OSError, OSError | ValueError, ValueError
  | AttributeError, AttributeError | AssertionError, AssertionError
  | RuntimeError, RuntimeError | RequestException, RequestException
  | HTTPError, HTTPError | ConnectionError, ConnectionError
  | Timeout, Timeout | ConnectTimeout, ConnectTimeout
  | ReadTimeout, ReadTimeout | JSONDecodeError, JSONDecodeError
  | ScriptControlException, ScriptControlException
  | StopException, StopException => true
  | _, _ => false
  end.

(** The direct base classes, [cls.__bases__]. *)
Definition bases (c : ExcClass) : list ExcClass :=
  match c with
  | BaseException => []
  | Exception | KeyboardInterrupt | SystemExit => [BaseException]
  | OSError | ValueError | AttributeError | AssertionError | RuntimeError =>
      [Exception]
  | RequestException => [OSError]
  | HTTPError | ConnectionError | Timeout => [RequestException]
  | ConnectTimeout => [ConnectionError; Timeout]
  | ReadTimeout => [Timeout]
  | JSONDecodeError => [RequestException; ValueError]
  | ScriptControlException => [BaseException]
  | StopException => [ScriptControlException]
  end.

Fixpoint issubclass_upto (depth : nat) (c d : ExcClass) : bool :=
  ExcClass_eqb c d
  || match depth with
     | O => false
     | S k => existsb (fun b => issubclass_upto k b d) (bases c)
     end.

(** No chain of base classes is longer than the number of classes. *)
Definition issubclass (c d : ExcClass) : bool := issubclass_upto 18 c d.

(** A raised exception: its class and the text [str(e)] gives. *)
Record PyExc := { exc_class : ExcClass; exc_str : str }.

Definition isinstance (e : PyExc) (c : ExcClass) : bool :=
  issubclass (exc_class e) c.

(** ** State and exceptions *)

Section Monad.

Context {S : Type}.

(** A computation over a state [S] that returns a value or raises. *)
Definition M (A : Type) : Type := S -> (A + PyExc) * S.

Definition ret {A} (a : A) : M A := fun s => (inl a, s).

Definition raise {A} (e : PyExc) : M A := fun s => (inr e, s).

Definition bind {A B} (m : M A) (k : A -> M B) : M B :=
  fun s =>
    match m s with
    | (inl a, s') => k a s'
    | (inr e, s') => (inr e, s')
    end.

Definition modify (f : S -> S) : M unit := fun s => (inl tt, f s).

(** One [except C as e: body] clause: the test [isinstance(e, C)] and the
    body.  A bare [except:] is the clause over [BaseException]. *)
Definition clause (A : Type) : Type := (PyExc -> bool) * (PyExc -> M A).

Definition except {A} (c : ExcClass) (body : PyExc -> M A) : clause A :=
  (fun e => isinstance e c, body).

(** The first clause that matches handles the exception; with none the
    exception propagates. *)
Fixpoint handle {A} (clauses : list (clause A)) (e : PyExc) : M A :=
  match clauses with
  | [] => raise e
  | (test, body) :: rest => if test e then body e else handle rest e
  end.

Definition try_except {A} (m : M A) (clauses : list (clause A)) : M A :=
  fun s =>
    match m s with
    | (inl a, s') => (inl a, s')
    | (inr e, s') => handle clauses e s'
    end.

End Monad.

Arguments M : clear implicits.

Declare Scope py_scope.
Delimit Scope py_scope with py.
Notation "x <- m ;; k" := (bind m (fun x => k))
  (at level 61, m at next level, right associativity) : py_scope.
Notation "m ;;; k" := (bind m (fun _ => k))
  (at level 61, right associativity) : py_scope.
Open Scope py_scope.

(** ** JSON values *)

#[local] Set Warnings "-register-all".

(** A decoded JSON document, as [json.loads] gives it.  The programs never
    compute with a number: an [int] is kept as a natural, whatever its
    sign, and a [float], the value of a number written with a fraction or
    an exponent, as the text it was written with. *)

Inductive json :=
| JNull
| JBool (b : bool)
| JNum (n : N)
| JFloat (written : str)
| JStr (s : str)
| JArr (items : list json)
| JObj (members : list (str * json)).

(** [d.get(key)] on the members of a [dict]. *)
Fixpoint lookup (key : str) (members : list (str * json)) : option json :=
  match members with
  | [] => None
  | (k, v) :: rest => if PyStr.eqb k key then Some v else lookup key rest
  end.

(** [type(v).__name__] of a decoded JSON value. *)
Definition type_name (v : json) : str :=
  match v with
  | JNull => lit "NoneType"
  | JBool _ => lit "bool"
  | JNum _ => lit "int"
  | JFloat _ => lit "float"
  | JStr _ => lit "str"
  | JArr _ => lit "list"
  | JObj _ => lit "dict"
  end.

(** * The server, [server.py] *)

Module Server.

(** ** Agents, tasks and the crew *)

Record LLM := { model : str }.

Record Tool := { tool_name : str }.

(** The keyword arguments of an [Agent(...)] call.  [tools] is [None] when
    the call passes no [tools] argument. *)
Record Agent := {
  role : str;
  goal : str;
  backstory : str;
  verbose : bool;
  tools : option (list Tool);
  agent_llm : LLM;
  allow_delegation : bool
}.

Record Task := {
  description : str;
  expected_output : str;
  agent : Agent
}.

Record Crew := {
  agents : list Agent;
  tasks : list Task;
  crew_verbose : bool
}.

Definition llm : LLM := {| model := lit "ollama/llama3" |}.

Definition researcher_agent : Agent := {|
  role := lit "Research Specialist";
  goal := lit "Accurately research and understand the user's specific question, then provide detailed insights and facts about the topic";
  backstory := lit "You are an expert researcher with deep knowledge across many fields. You carefully analyze questions and provide accurate, factual information. You focus on understanding exactly what the user is asking and provide relevant information about that specific topic.";
  verbose := true;
  tools := Some [];
  agent_llm := llm;
  allow_delegation := false
|}.

Definition writer_agent : Agent := {|
  role := lit "Technical Writer";
  goal := lit "Write a clear, accurate, and comprehensive answer that directly addresses the user's question";
  backstory := lit "You are a skilled technical writer who creates clear, accurate explanations. You take research insights and synthesize them into well-structured answers that directly answer what the user asked. You ensure the answer is relevant to the specific question asked.";
  verbose := true;
  tools := None;
  agent_llm := llm;
  allow_delegation := false
|}.

Definition researcher_task : Task := {|
  description :=
    lit "Carefully analyze the user's question: " ++ dq ++ lit "{query}" ++ dq ++ nl
    ++ nl
    ++ lit "Your task is to:" ++ nl
    ++ lit "1. Understand exactly what the user is asking about" ++ nl
    ++ lit "2. Research and gather accurate information about that specific topic" ++ nl
    ++ lit "3. Provide detailed insights and facts related to the user's question" ++ nl
    ++ lit "4. Focus ONLY on the topic mentioned in the query - do not confuse it with other topics" ++ nl
    ++ nl
    ++ lit "User's question: {query}";
  expected_output := lit "A detailed research report with accurate facts and insights about the specific topic mentioned in the user's question";
  agent := researcher_agent
|}.

Definition writer_task : Task := {|
  description :=
    lit "Using the research insights provided, write a comprehensive answer to the user's question: " ++ dq ++ lit "{query}" ++ dq ++ nl
    ++ nl
    ++ lit "Requirements:" ++ nl
    ++ lit "1. Directly answer the user's specific question" ++ nl
    ++ lit "2. Use the research insights to provide accurate information" ++ nl
    ++ lit "3. Ensure your answer is about the exact topic the user asked about" ++ nl
    ++ lit "4. Write clearly and comprehensively" ++ nl
    ++ lit "5. Do not confuse the topic with other unrelated subjects" ++ nl
    ++ nl
    ++ lit "User's question: {query}";
  expected_output := lit "A clear, accurate, and comprehensive answer that directly addresses the user's specific question";
  agent := writer_agent
|}.





Definition crew : Crew := {|
  agents := [researcher_agent; writer_agent];
  tasks := [researcher_task; writer_task];
  crew_verbose := true
|}.

(** ** The orchestration library

    The library that runs a crew and the language-model backend behind it
    are not part of the repository.  They are modelled after the
    description the specification gives of them: a completion capability
    that turns a role, a goal, a backstory and an instruction into free
    text, and an orchestration capability that runs the stages in order
    and threads the earlier outputs into the context of the later ones. *)

(** Modelled from the spec: the tools an agent works with are those of its
    [tools] argument, and without one the default, the empty list. *)
Definition agent_tools (a : Agent) : list Tool :=
  match tools a with
  | Some ts => ts
  | None => []
  end.

(** Modelled from the spec: one request to the language-model backend, with
    the persona and tools of the agent, the instruction and expected output
    of its task with the inputs filled in, and the outputs of the earlier
    tasks as context. *)
Record Completion := {
  with_role : str;
  with_goal : str;
  with_backstory : str;
  with_tools : list Tool;
  with_model : str;
  instruction : str;
  expected : str;
  context : list str
}.

(** The state of the server's world: the requests made to the language-model
    backend so far, oldest first. *)
Definition World := list Completion.

(** Modelled from the spec: the result of [Crew.kickoff], the outputs of
    the tasks in order. *)
Record CrewOutput := { tasks_output : list str }.

(** Modelled from the spec: [str(result)], the text of the last task. *)
Definition CrewOutput_str (r : CrewOutput) : str := last (tasks_output r) [].

(** Modelled from the spec: each [{key}] of a template replaced by the
    input of that name. *)
Fixpoint interpolate (template : str) (inputs : list (str * str)) : str :=
  match inputs with
  | [] => template
  | (key, value) :: rest =>
      interpolate (replace template (lit "{" ++ key ++ lit "}") value) rest
  end.

(** Modelled from the spec: the request a task makes with the runtime
    inputs and a context. *)
Definition completion_of (t : Task) (inputs : list (str * str))
    (ctx : list str) : Completion := {|
  with_role := role (agent t);
  with_goal := goal (agent t);
  with_backstory := backstory (agent t);
  with_tools := agent_tools (agent t);
  with_model := model (agent_llm (agent t));
  instruction := interpolate (description t) inputs;
  expected := interpolate (expected_output t) inputs;
  context := ctx
|}.

Section Backend.

(** The language-model backend: what it answers to a request, given the
    requests it has served before.  It answers with free text or fails. *)
Variable complete : World -> Completion -> str + PyExc.

(** Modelled from the spec: a stage is one request to the backend, which
    is recorded in the world. *)
Definition execute_task (t : Task) (inputs : list (str * str))
    (ctx : list str) : M World str :=
  fun w =>
    let c := completion_of t inputs ctx in
    (complete w c, w ++ [c]).

(** Modelled from the spec: the orchestration capability is external to the
    repository; it runs the stage definitions of the crew in the order of
    the list and threads the output of the earlier stages into the context of
    the later ones. *)
Fixpoint run_tasks (ts : list Task) (inputs : list (str * str))
    (outputs : list str) : M World (list str) :=
  match ts with
  | [] => ret outputs
  | t :: rest =>
      out <- execute_task t inputs outputs ;;
      run_tasks rest inputs (outputs ++ [out])
  end.

(** Modelled from the spec: [Crew.kickoff(inputs)], the run of the tasks of
    the crew on the runtime inputs. *)
Definition kickoff (c : Crew) (inputs : list (str * str)) : M World CrewOutput :=
  outs <- run_tasks (tasks c) inputs [] ;;
  ret {| tasks_output := outs |}.

(** ** The endpoints *)

Record QueryRequest := { query : str }.

(** What an endpoint function returns: a [dict], or a [JSONResponse], whose
    status code is 200 unless the call gives one. *)
Inductive Returned :=
| Dict (d : json)
| JSONResponse (content : json) (status_code : option N).

Record Response := { status : N; body : json }.

(** The HTTP response the framework sends for the returned value. *)
Definition respond (r : Returned) : Response :=
  match r with
  | Dict d => {| status := 200; body := d |}
  | JSONResponse c None => {| status := 200; body := c |}
  | JSONResponse c (Some code) => {| status := code; body := c |}
  end.

Definition predict (request : QueryRequest) : M World Returned :=
  try_except
    (result <- kickoff crew [(lit "query", query request)] ;;
     ret (JSONResponse
            (JObj [(lit "output", JObj [(lit "raw", JStr (CrewOutput_str result))])])
            None))
    [except Exception (fun e =>
       ret (JSONResponse (JObj [(lit "error", JStr (exc_str e))]) (Some 500%N)))].

Definition health : M World Returned :=
  ret (Dict (JObj [(lit "status", JStr (lit "healthy"))])).

(** [POST /predict] and [GET /health] as the framework serves them. *)
Definition POST_predict (request : QueryRequest) : M World Response :=
  r <- predict request ;; ret (respond r).

Definition GET_health : M World Response :=
  r <- health ;; ret (respond r).

End Backend.

(** Two backends to run the server on: one that answers every request with
    the same text, one that fails every request with the same exception. *)
Definition answering (text : str) : World -> Completion -> str + PyExc :=
  fun _ _ => inl text.

Definition failing (e : PyExc) : World -> Completion -> str + PyExc :=
  fun _ _ => inr e.

(** A backend whose researcher answers and whose writer fails: a request
    without context is answered with the research, and one with a context
    fails with the exception made from that context. *)
Definition writer_failing (research : str) (e : list str -> PyExc)
  : World -> Completion -> str + PyExc :=
  fun _ c =>
    match context c with
    | [] => inl research
    | ctx => inr (e ctx)
    end.

End Server.

(** * The front end, [app.py] *)

Module FrontEnd.

(** ** The network *)

Inductive Method := GET | POST.

(** A call of [requests.get] or [requests.post]: the URL, the [json]
    argument and the [timeout] argument in seconds. *)
Record HttpRequest := {
  method : Method;
  url : str;
  json_payload : option json;
  timeout : N
}.

(** A [requests.Response]: [decoded] is what [response.json()] gives, the
    decoded body (a [dict] there has one member per key) or the message of
    the decoding error. *)
Record HttpResponse := {
  status_code : N;
  reason : str;
  response_url : str;
  decoded : json + str
}.

(** ** The page *)

(** The calls into Streamlit that draw something. *)
Inductive Widget :=
| sidebar_markdown (body : str) (unsafe_allow_html : bool)
| markdown (body : json) (unsafe_allow_html : bool)
| error (body : str)
| info (body : str)
| warning (body : str)
| text_area (label : str) (height : N) (placeholder help : str)
| columns (spec : list N)
| button (label type : str) (use_container_width : bool)
| spinner (text : str)
| expander (label : str)
| json_view (value : json).

(** A drawn element: the line of [app.py] that drew it, and the call. *)
Record Element := { line : nat; widget : Widget }.

(** The state of one run of the script: the requests sent, the elements
    drawn (both oldest first), and the entries of the cache of
    [check_server_health] that have not expired. *)
Record Page := {
  sent : list HttpRequest;
  rendered : list Element;
  health_cache : list (str * bool)
}.

(** What the user has put into the widgets when the script runs. *)
Record Inputs := {
  text_input_value : str;
  text_area_value : str;
  button_clicked : bool
}.

Section Script.

(** The network during one run of the script: the answer, or the exception
    [requests] raises, for each request.  A run sends each request at most
    once. *)
Variable send : HttpRequest -> HttpResponse + PyExc.

Definition request (r : HttpRequest) : M Page HttpResponse :=
  fun p =>
    (send r,
     {| sent := sent p ++ [r];
        rendered := rendered p;
        health_cache := health_cache p |}).

Definition requests_get (u : str) (seconds : N) : M Page HttpResponse :=
  request {| method := GET; url := u; json_payload := None; timeout := seconds |}.

Definition requests_post (u : str) (payload : json) (seconds : N)
  : M Page HttpResponse :=
  request {| method := POST; url := u; json_payload := Some payload;
             timeout := seconds |}.

(** [response.raise_for_status()] *)
Definition raise_for_status (r : HttpResponse) : M Page unit :=
  let code := status_code r in
  if ((400 <=? code) && (code <? 500))%N then
    raise {| exc_class := HTTPError;
             exc_str := of_N code ++ lit " Client Error: " ++ reason r
                        ++ lit " for url: " ++ response_url r |}
  else if ((500 <=? code) && (code <? 600))%N then
    raise {| exc_class := HTTPError;
             exc_str := of_N code ++ lit " Server Error: " ++ reason r
                        ++ lit " for url: " ++ response_url r |}
  else ret tt.

(** [response.json()] *)
Definition response_json (r : HttpResponse) : M Page json :=
  match decoded r with
  | inl v => ret v
  | inr message => raise {| exc_class := JSONDecodeError; exc_str := message |}
  end.

(** [v.get(key, default)]: only a [dict] has the method. *)
Definition get (v : json) (key : str) (default : json) : M Page json :=
  match v with
  | JObj members =>
      ret (match lookup key members with Some x => x | None => default end)
  | _ =>
      raise {| exc_class := AttributeError;
               exc_str := lit "'" ++ type_name v
                          ++ lit "' object has no attribute 'get'" |}
  end.

(** A drawing call of Streamlit at a line of the script. *)
Definition st (l : nat) (w : Widget) : M Page unit :=
  modify (fun p =>
    {| sent := sent p;
       rendered := rendered p ++ [{| line := l; widget := w |}];
       health_cache := health_cache p |}).

(** [st.stop()] ends the run by an exception outside [Exception]. *)
Definition st_stop : M Page unit :=
  raise {| exc_class := StopException; exc_str := [] |}.

Fixpoint cached (u : str) (entries : list (str * bool)) : option bool :=
  match entries with
  | [] => None
  | (k, v) :: rest => if PyStr.eqb k u then Some v else cached u rest
  end.

(** [@st.cache_data]: the stored value for the argument when there is one,
    and the value of the call, then stored, when there is none. *)
Definition cache_data (f : str -> M Page bool) (u : str) : M Page bool :=
  fun p =>
    match cached u (health_cache p) with
    | Some v => (inl v, p)
    | None =>
        match f u p with
        | (inl v, p') =>
            (inl v,
             {| sent := sent p';
                rendered := rendered p';
                health_cache := (u, v) :: health_cache p' |})
        | (inr e, p') => (inr e, p')
        end
    end.

Definition health_request (u : str) : HttpRequest :=
  {| method := GET; url := u ++ lit "/health"; json_payload := None;
     timeout := 2 |}.

Definition check_server_health : str -> M Page bool :=
  cache_data (fun u =>
    try_except
      (response <- requests_get (u ++ lit "/health") 2 ;;
       ret (status_code response =? 200)%N)
      [except BaseException (fun _ => ret false)]).

Definition predict_request (server_url query : str) : HttpRequest :=
  {| method := POST; url := server_url ++ lit "/predict";
     json_payload := Some (JObj [(lit "query", JStr query)]);
     timeout := 300 |}.

(** Lines 110 to 139: the request for a prediction and what is drawn for
    its outcome. *)
Definition get_answer (SERVER_URL query : str) : M Page unit :=
  st 110 (spinner ([129300%N] ++ lit " Thinking... (This may take a minute)")) ;;;
  try_except
    (let payload := JObj [(lit "query", JStr query)] in
     response <- requests_post (SERVER_URL ++ lit "/predict") payload 300 ;;
     raise_for_status response ;;;
     result <- response_json response ;;
     output <- get result (lit "output") (JObj []) ;;
     answer <- get output (lit "raw") (JStr (lit "No response received")) ;;
     st 123 (markdown (JStr (lit "### " ++ [128221%N] ++ lit " Response")) false) ;;;
     st 124 (markdown (JStr (lit "<div class=" ++ dq ++ lit "response-box" ++ dq ++ lit ">")) true) ;;;
     st 125 (markdown answer false) ;;;
     st 126 (markdown (JStr (lit "</div>")) true) ;;;
     st 129 (expander ([128269%N] ++ lit " View Raw Response")) ;;;
     st 130 (json_view result))
    [except Timeout (fun _ =>
       st 133 (error ([9201%N; 65039%N] ++ lit " Request timed out. The server might be processing a complex query. Please try again.")));
     except ConnectionError (fun _ =>
       st 135 (error ([10060%N] ++ lit " Could not connect to the server. Make sure the server is running.")));
     except RequestException (fun e =>
       st 137 (error ([10060%N] ++ lit " Error: " ++ exc_str e)));
     except Exception (fun e =>
       st 139 (error ([10060%N] ++ lit " Unexpected error: " ++ exc_str e)))].

(** Lines 106 to 139: what a press of the button does. *)
Definition process_query (SERVER_URL query : str) (submit_button : bool)
  : M Page unit :=
  if submit_button && truthy query then
    if negb (truthy (strip query)) then
      st 108 (warning (lit "Please enter a question!"))
    else
      get_answer SERVER_URL query
  else ret tt.

(** Lines 76 to 90: the status of the server, and the end of the run when
    it is offline. *)
Definition server_status (SERVER_URL : str) : M Page bool :=
  is_online <- check_server_health SERVER_URL ;;
  let status_class :=
    if is_online then lit "status-online" else lit "status-offline" in
  let status_text :=
    if is_online then [128994%N] ++ lit " Online"
    else [128308%N] ++ lit " Offline" in
  st 80 (sidebar_markdown
           (lit "<span class=" ++ dq ++ lit "status-badge " ++ status_class
            ++ dq ++ lit ">" ++ status_text ++ lit "</span>")
           true) ;;;
  (if negb is_online then
     st 83 (error ([9888%N; 65039%N] ++ lit " Server is not running at "
                   ++ SERVER_URL)) ;;;
     st 84 (info (nl
                  ++ lit "    **To start the server:**" ++ nl
                  ++ lit "    1. Open a terminal" ++ nl
                  ++ lit "    2. Navigate to the project directory" ++ nl
                  ++ lit "    3. Run: `python3 server.py`" ++ nl
                  ++ lit "    ")) ;;;
     st_stop
   else ret tt) ;;;
  ret is_online.

(** Lines 76 to 139 of the script: one run, from the values of the
    widgets.  The lines before draw the fixed header of the page and read
    the URL of the server; the lines after, reached only when the run has
    not stopped, draw the example queries and the footer. *)
Definition script (inputs : Inputs) : M Page unit :=
  let SERVER_URL := text_input_value inputs in
  server_status SERVER_URL ;;;
  st 93 (markdown (JStr (lit "### " ++ [128172%N] ++ lit " Ask a Question")) false) ;;;
  st 94 (text_area (lit "Enter your question:") 100
           (lit "e.g., What is artificial intelligence? Explain quantum computing. What are the benefits of renewable energy?")
           (lit "Type your question and click 'Get Answer' to get a response from the AI agents")) ;;;
  let query := text_area_value inputs in
  st 101 (columns [1%N; 5%N]) ;;;
  st 103 (button ([128640%N] ++ lit " Get Answer") (lit "primary") true) ;;;
  let submit_button := button_clicked inputs in
  process_query SERVER_URL query submit_button.

(** A run starts with nothing sent and nothing drawn; only the cache lives
    on from the runs before. *)
Definition start (cache : list (str * bool)) : Page :=
  {| sent := []; rendered := []; health_cache := cache |}.

Definition run (inputs : Inputs) (cache : list (str * bool))
  : (unit + PyExc) * Page :=
  script inputs (start cache).

End Script.

(** Networks to run the script on: a server that is up and answers a
    prediction with a given response or exception, and no server at all. *)
Definition ok (u : str) (v : json + str) : HttpResponse :=
  {| status_code := 200; reason := lit "OK"; response_url := u; decoded := v |}.

Definition server_up (prediction : HttpResponse + PyExc)
  : HttpRequest -> HttpResponse + PyExc :=
  fun r =>
    match method r with
    | GET => inl (ok (url r) (inl (JObj [(lit "status", JStr (lit "healthy"))])))
    | POST => prediction
    end.

Definition server_down : HttpRequest -> HttpResponse + PyExc :=
  fun _ => inr {| exc_class := ConnectionError;
                  exc_str := lit "Connection refused" |}.

Definition localhost : str := lit "http://localhost:8000".

Definition paris : json :=
  JObj [(lit "output", JObj [(lit "raw", JStr (lit "Paris"))])].

(** ** What a run shows for a submission *)

Inductive Category :=
| TimeoutError | ConnectionFailure | RequestFailure | UnexpectedFailure.

Inductive Outcome :=
| ResultText
| RawView
| ErrorMessage (c : Category).

(** The outcome an element of lines 110 to 139 stands for, by the line that
    drew it. *)
Definition outcome_of (e : Element) : option Outcome :=
  match line e with
  | 125 => Some ResultText
  | 130 => Some RawView
  | 133 => Some (ErrorMessage TimeoutError)
  | 135 => Some (ErrorMessage ConnectionFailure)
  | 137 => Some (ErrorMessage RequestFailure)
  | 139 => Some (ErrorMessage UnexpectedFailure)
  | _ => None
  end.

Fixpoint outcomes (es : list Element) : list Outcome :=
  match es with
  | [] => []
  | e :: rest =>
      match outcome_of e with
      | Some o => o :: outcomes rest
      | None => outcomes rest
      end
  end.

Definition is_post (r : HttpRequest) : bool :=
  match method r with POST => true | GET => false end.

(** The control to submit a query is on the page when its button is. *)
Definition is_button (e : Element) : bool :=
  match widget e with button _ _ _ => true | _ => false end.

(** A page with more elements drawn, or one more request sent. *)
Definition drawn (p : Page) (es : list Element) : Page :=
  {| sent := sent p; rendered := rendered p ++ es;
     health_cache := health_cache p |}.

Definition requested (p : Page) (r : HttpRequest) : Page :=
  {| sent := sent p ++ [r]; rendered := rendered p;
     health_cache := health_cache p |}.

Definition timeout_message : Element :=
  {| line := 133;
     widget := error ([9201%N; 65039%N] ++ lit " Request timed out. The server might be processing a complex query. Please try again.") |}.

Definition offline_badge : Element :=
  {| line := 80;
     widget := sidebar_markdown
       (lit "<span class=" ++ dq ++ lit "status-badge status-offline" ++ dq
        ++ lit ">" ++ [128308%N] ++ lit " Offline</span>") true |}.

(** ** The elements of lines 108 to 139 *)

Definition warning_element : Element :=
  {| line := 108; widget := warning (lit "Please enter a question!") |}.

Definition spinner_element : Element :=
  {| line := 110;
     widget := spinner ([129300%N] ++ lit " Thinking... (This may take a minute)") |}.

(** Lines 123 to 130: the answer in its box, and the raw response. *)
Definition response_view (answer result : json) : list Element :=
  [ {| line := 123;
       widget := markdown (JStr (lit "### " ++ [128221%N] ++ lit " Response")) false |};
    {| line := 124;
       widget := markdown (JStr (lit "<div class=" ++ dq ++ lit "response-box" ++ dq ++ lit ">")) true |};
    {| line := 125; widget := markdown answer false |};
    {| line := 126; widget := markdown (JStr (lit "</div>")) true |};
    {| line := 129; widget := expander ([128269%N] ++ lit " View Raw Response") |};
    {| line := 130; widget := json_view result |} ].

Definition connection_message : Element :=
  {| line := 135;
     widget := error ([10060%N] ++ lit " Could not connect to the server. Make sure the server is running.") |}.

Definition request_error (text : str) : Element :=
  {| line := 137; widget := error ([10060%N] ++ lit " Error: " ++ text) |}.

Definition unexpected_error (text : str) : Element :=
  {| line := 139; widget := error ([10060%N] ++ lit " Unexpected error: " ++ text) |}.

(** The text of the [HTTPError] of [raise_for_status]. *)
Definition http_error_text (r : HttpResponse) : str :=
  of_N (status_code r)
  ++ (if (status_code r <? 500)%N then lit " Client Error: "
      else lit " Server Error: ")
  ++ reason r ++ lit " for url: " ++ response_url r.

(** The text of the [AttributeError] of a [.get] on a value that is no
    [dict]. *)
Definition no_attribute_get (v : json) : str :=
  lit "'" ++ type_name v ++ lit "' object has no attribute 'get'".

Definition is_dict (v : json) : bool :=
  match v with JObj _ => true | _ => false end.

(** ** Runs that reach the request *)

(** What the status check of a run finds. *)
Definition is_online (send : HttpRequest -> HttpResponse + PyExc)
    (inputs : Inputs) (cache : list (str * bool)) : bool :=
  match fst (check_server_health send (text_input_value inputs) (start cache)) with
  | inl b => b
  | inr _ => false
  end.

(** A run submits its query when the server is found online, the button is
    pressed and the query is not blank. *)
Definition submitted (send : HttpRequest -> HttpResponse + PyExc)
    (inputs : Inputs) (cache : list (str * bool)) : Prop :=
  fst (check_server_health send (text_input_value inputs) (start cache))
    = inl true
  /\ button_clicked inputs = true
  /\ truthy (strip (text_area_value inputs)) = true.

(** The request of a run for a prediction. *)
Definition prediction_of (inputs : Inputs) : HttpRequest :=
  predict_request (text_input_value inputs) (text_area_value inputs).

(** A question put to the server at its default address. *)
Definition question : Inputs :=
  {| text_input_value := localhost;
     text_area_value := lit "Capital of France?";
     button_clicked := true |}.

(** The response of the server as the client receives it. *)
Definition delivered (r : Server.Response) (phrase u : str) : HttpResponse :=
  {| status_code := Server.status r; reason := phrase; response_url := u;
     decoded := inl (Server.body r) |}.

End FrontEnd.

(** * Properties *)

(** ** Strings and exceptions *)

Lemma isinstance_BaseException (e : PyExc) : isinstance e BaseException = true.
Proof. destruct e as [c s]; destruct c; reflexivity. Qed.

Lemma lstrip_spaces (s : str) : forallb isspace s = true -> lstrip s = [].
Proof.
  induction s as [|c s IH]; simpl; [reflexivity|].
  intros H; apply andb_prop in H as [Hc Hs].
  rewrite Hc; auto.
Qed.

Lemma strip_spaces (s : str) : forallb isspace s = true -> strip s = [].
Proof.
  intros H; unfold strip, rstrip.
  rewrite (lstrip_spaces s H); reflexivity.
Qed.





(** ** The server *)

Module ServerFacts.

Import Server.

Section Facts.

Variable complete : World -> Completion -> str + PyExc.

(** The run of the crew, spelled out: the researcher's request, then the
    writer's with the research as its context. *)
Lemma kickoff_crew (inputs : list (str * str)) (w : World) :
  let R := completion_of researcher_task inputs [] in
  kickoff complete crew inputs w =
    match complete w R with
    | inr e => (inr e, w ++ [R])
    | inl research =>
        let W := completion_of writer_task inputs [research] in
        match complete (w ++ [R]) W with
        | inr e => (inr e, w ++ [R; W])
        | inl answer =>
            (inl {| tasks_output := [research; answer] |}, w ++ [R; W])
        end
    end.
Proof.
  unfold kickoff, crew, bind; simpl tasks.
  unfold run_tasks, bind, execute_task, ret.
  change ([] ++ ?x) with x.
  destruct (complete w _) as [research|e]; [|reflexivity].
  simpl app at 1.
  destruct (complete (w ++ _) _) as [answer|e];
    rewrite <- app_assoc; reflexivity.
Qed.

(** The instruction of the researcher's request is the text of its task
    around the query, and the one of the writer's likewise. *)
Lemma researcher_instruction (q : str) :
  instruction (completion_of researcher_task [(lit "query", q)] []) =
    lit "Carefully analyze the user's question: " ++ dq ++ q ++ dq ++ nl
    ++ nl
    ++ lit "Your task is to:" ++ nl
    ++ lit "1. Understand exactly what the user is asking about" ++ nl
    ++ lit "2. Research and gather accurate information about that specific topic" ++ nl
    ++ lit "3. Provide detailed insights and facts related to the user's question" ++ nl
    ++ lit "4. Focus ONLY on the topic mentioned in the query - do not confuse it with other topics" ++ nl
    ++ nl
    ++ lit "User's question: " ++ q.
Proof.
  rewrite <- (app_nil_r q) at 3.
  vm_compute. reflexivity.
Qed.

Lemma writer_instruction (q : str) (ctx : list str) :
  instruction (completion_of writer_task [(lit "query", q)] ctx) =
    lit "Using the research insights provided, write a comprehensive answer to the user's question: " ++ dq ++ q ++ dq ++ nl
    ++ nl
    ++ lit "Requirements:" ++ nl
    ++ lit "1. Directly answer the user's specific question" ++ nl
    ++ lit "2. Use the research insights to provide accurate information" ++ nl
    ++ lit "3. Ensure your answer is about the exact topic the user asked about" ++ nl
    ++ lit "4. Write clearly and comprehensively" ++ nl
    ++ lit "5. Do not confuse the topic with other unrelated subjects" ++ nl
    ++ nl
    ++ lit "User's question: " ++ q.
Proof.
  rewrite <- (app_nil_r q) at 3.
  vm_compute. reflexivity.
Qed.

(** C1: when the run of the crew succeeds, [POST /predict] answers with
    status 200 and a body of exactly the shape
    [{"output": {"raw": <string>}}], whose string is the text of the
    result. *)
Theorem predict_success (q : str) (w w' : World) (result : CrewOutput) :
  kickoff complete crew [(lit "query", q)] w = (inl result, w') ->
  POST_predict complete {| query := q |} w =
    (inl {| status := 200;
            body := JObj [(lit "output",
                           JObj [(lit "raw", JStr (CrewOutput_str result))])] |},
     w').
Proof.
  intros H.
  unfold POST_predict, predict, bind, try_except.
  cbn [query]. rewrite H. reflexivity.
Qed.

(** C2, amended: when the run of the crew raises an exception that is an
    instance of [Exception], [POST /predict] answers with status 500 and a
    body that is exactly [{"error": str(e)}]: [error] is its only key, so
    there is no [output], and its value is the text of the exception as it
    is, which may be empty. *)
Theorem predict_failure (q : str) (w w' : World) (e : PyExc) :
  kickoff complete crew [(lit "query", q)] w = (inr e, w') ->
  isinstance e Exception = true ->
  POST_predict complete {| query := q |} w =
    (inl {| status := 500;
            body := JObj [(lit "error", JStr (exc_str e))] |},
     w').
Proof.
  intros H He.
  unfold POST_predict, predict, bind, try_except.
  cbn [query]. rewrite H. unfold handle, except. rewrite He. reflexivity.
Qed.




(** C9, amended: neither agent has a tool.  The researcher is given the
    empty list; the writer is given no [tools] argument and so has the
    default, which is empty; every request of a run carries no tool. *)
Theorem no_tools :
  tools researcher_agent = Some []
  /\ tools writer_agent = None
  /\ agent_tools researcher_agent = []
  /\ agent_tools writer_agent = []
  /\ forall (inputs : list (str * str)) (w : World),
       exists calls,
         snd (kickoff complete crew inputs w) = w ++ calls
         /\ Forall (fun c => with_tools c = []) calls.
Proof.
  repeat split.
  intros inputs w. rewrite kickoff_crew. cbv zeta.
  destruct (complete w _) as [research|e].
  - destruct (complete (w ++ _) _) as [answer|e];
      (eexists; split; [reflexivity|]);
      repeat constructor.
  - eexists; split; [reflexivity|]. repeat constructor.
Qed.

End Facts.

(** C3: [GET /health] answers with status 200 and the body
    [{"status": "healthy"}] in every state of the world, and leaves that
    state as it is; it makes no request to the language-model backend. *)
Theorem health_always (w : World) :
  GET_health w =
    (inl {| status := 200;
            body := JObj [(lit "status", JStr (lit "healthy"))] |},
     w).
Proof. reflexivity. Qed.

Lemma predict_success_witness :
  let q := lit "What is artificial intelligence?" in
  let R := completion_of researcher_task [(lit "query", q)] [] in
  let W := completion_of writer_task [(lit "query", q)] [lit "notes"] in
  kickoff (answering (lit "notes")) crew [(lit "query", q)] [] =
    (inl {| tasks_output := [lit "notes"; lit "notes"] |}, [R; W])
  /\ POST_predict (answering (lit "notes")) {| query := q |} [] =
       (inl {| status := 200;
               body := JObj [(lit "output",
                              JObj [(lit "raw", JStr (lit "notes"))])] |},
        [R; W]).
Proof.
  intros q R W.
  assert (H : kickoff (answering (lit "notes")) crew [(lit "query", q)] [] =
              (inl {| tasks_output := [lit "notes"; lit "notes"] |}, [R; W]))
    by reflexivity.
  split; [exact H|].
  exact (predict_success (answering (lit "notes")) q [] H).
Defined.

Lemma predict_failure_witness :
  let q := lit "What is artificial intelligence?" in
  let e := {| exc_class := RuntimeError; exc_str := lit "model not found" |} in
  let complete := writer_failing (lit "research notes") (fun _ => e) in
  let R := completion_of researcher_task [(lit "query", q)] [] in
  let W := completion_of writer_task [(lit "query", q)]
             [lit "research notes"] in
  kickoff complete crew [(lit "query", q)] [] = (inr e, [R; W])
  /\ isinstance e Exception = true
  /\ POST_predict complete {| query := q |} [] =
       (inl {| status := 500;
               body := JObj [(lit "error", JStr (lit "model not found"))] |},
        [R; W]).
Proof.
  intros q e complete R W.
  assert (H : kickoff complete crew [(lit "query", q)] [] = (inr e, [R; W]))
    by reflexivity.
  assert (He : isinstance e Exception = true) by reflexivity.
  split; [exact H|]. split; [exact He|].
  exact (predict_failure complete q [] H He).
Defined.

(** C2 as stated fails on each of its three points: an exception whose
    text is empty gives an [error] that is the empty string; an exception
    outside [Exception] is not caught, so no response is made; and when the
    writer fails with an exception whose text is the context it was given,
    the body of the response carries the output of the researcher. *)
Lemma predict_failure_counterexample :
  let q := lit "hi" in
  let R := completion_of researcher_task [(lit "query", q)] [] in
  let W := completion_of writer_task [(lit "query", q)]
             [lit "research notes"] in
  let silent := {| exc_class := AssertionError; exc_str := [] |} in
  let interrupt := {| exc_class := KeyboardInterrupt; exc_str := [] |} in
  let telling (ctx : list str) :=
    {| exc_class := RuntimeError; exc_str := List.concat ctx |} in
  POST_predict (failing silent) {| query := q |} [] =
    (inl {| status := 500; body := JObj [(lit "error", JStr [])] |}, [R])
  /\ POST_predict (failing interrupt) {| query := q |} [] =
       (inr interrupt, [R])
  /\ POST_predict (writer_failing (lit "research notes") telling)
       {| query := q |} [] =
       (inl {| status := 500;
               body := JObj [(lit "error", JStr (lit "research notes"))] |},
        [R; W]).
Proof. repeat split; reflexivity. Qed.

(** C9 as stated fails: the writer is not given an empty tool list, it is
    given none. *)
Lemma writer_tools_not_explicit :
  ~ Forall (fun a => tools a = Some []) (agents crew).
Proof.
  intros H. inversion H as [|a l _ H2]; subst.
  inversion H2 as [|a l Hw _]; subst.
  discriminate Hw.
Qed.

End ServerFacts.

(** ** The front end *)

Module FrontEndFacts.

Import FrontEnd.

#[local] Arguments lit : simpl never.
#[local] Arguments of_N : simpl never.

(** Closes a case of the analysis of [get_answer]: the page is the one
    stated once the appends are put in order, and the elements drawn are
    read off it. *)
Ltac class_tests :=
  repeat match goal with
  | |- context [isinstance {| exc_class := ?c; exc_str := ?s |} ?d] =>
      let b := eval vm_compute in (issubclass c d) in
      change (isinstance {| exc_class := c; exc_str := s |} d) with b
  end.

Ltac solve_get_answer :=
  do 2 eexists; split;
  [ unfold drawn, requested, raise, ret, get, handle, except, st, modify, bind;
    cbn -[lit of_N app isinstance]; class_tests;
    cbn -[lit of_N app isinstance];
    rewrite <- ?app_assoc; cbn [app]; reflexivity
  | cbn [In]; solve [auto 8] ].

Lemma outcomes_app (a b : list Element) :
  outcomes (a ++ b) = outcomes a ++ outcomes b.
Proof.
  induction a as [|e a IH]; simpl; [reflexivity|].
  destruct (outcome_of e); simpl; rewrite IH; reflexivity.
Qed.

Lemma truthy_strip (q : str) : truthy (strip q) = true -> truthy q = true.
Proof. destruct q; [discriminate|reflexivity]. Qed.

Section Facts.

Variable send : HttpRequest -> HttpResponse + PyExc.

(** The health check never raises; it answers from the cache, or sends the
    one request to [/health] and stores what it found. *)
Lemma check_server_health_cases (u : str) (p : Page) :
  (exists v, check_server_health send u p = (inl v, p))
  \/ (exists v,
        check_server_health send u p =
          (inl v, {| sent := sent p ++ [health_request u];
                     rendered := rendered p;
                     health_cache := (u, v) :: health_cache p |})).
Proof.
  unfold check_server_health, cache_data.
  destruct (cached u (health_cache p)) as [v|].
  - left. exists v. reflexivity.
  - right. unfold try_except, bind, requests_get, request, health_request.
    destruct (send _) as [response|e].
    + eexists. reflexivity.
    + unfold handle, except. rewrite isinstance_BaseException.
      eexists. reflexivity.
Qed.

(** Offline, the run draws the badge, the error and the hint, and stops. *)
Lemma script_offline (inputs : Inputs) (p p1 : Page) :
  check_server_health send (text_input_value inputs) p = (inl false, p1) ->
  exists e83 e84,
    is_button e83 = false /\ is_button e84 = false
    /\ script send inputs p =
         (inr {| exc_class := StopException; exc_str := [] |},
          drawn p1 [offline_badge; e83; e84]).
Proof.
  intros H.
  unfold script, server_status, bind. rewrite H.
  unfold st, modify, st_stop, raise, drawn. cbn -[lit app].
  do 2 eexists. split; [|split].
  3: { rewrite <- !app_assoc. cbn [app]. reflexivity. }
  all: reflexivity.
Qed.

(** Online, the run draws the badge and the form, none of them an outcome,
    and goes on to the press of the button. *)
Lemma script_online (inputs : Inputs) (p p1 : Page) :
  check_server_health send (text_input_value inputs) p = (inl true, p1) ->
  exists form,
    outcomes form = []
    /\ script send inputs p =
         process_query send (text_input_value inputs)
           (text_area_value inputs) (button_clicked inputs) (drawn p1 form).
Proof.
  intros H.
  unfold script, server_status, bind. rewrite H.
  unfold st, modify, ret, drawn. cbn -[lit app process_query].
  eexists. split.
  2: { rewrite <- !app_assoc. cbn [app]. reflexivity. }
  reflexivity.
Qed.

(** A query that is blank after [strip] draws at most the warning. *)
Lemma process_query_blank (u q : str) (clicked : bool) (p : Page) :
  strip q = [] ->
  exists es,
    outcomes es = []
    /\ process_query send u q clicked p = (inl tt, drawn p es).
Proof.
  intros H. unfold process_query. rewrite H.
  destruct (clicked && truthy q).
  - exists [{| line := 108; widget := warning (lit "Please enter a question!") |}].
    split; reflexivity.
  - exists []. split; [reflexivity|].
    unfold ret, drawn. rewrite app_nil_r. destruct p; reflexivity.
Qed.

(** The request for a prediction is sent once, and what is drawn follows
    the outcome of the request. *)
Lemma get_answer_cases (u q : str) (p : Page) :
  exists res es,
    get_answer send u q p = (res, drawn (requested p (predict_request u q)) es)
    /\ match send (predict_request u q) with
       | inr e =>
           if isinstance e Timeout then
             outcomes es = [ErrorMessage TimeoutError]
             /\ In timeout_message es
           else if isinstance e ConnectionError then
             outcomes es = [ErrorMessage ConnectionFailure]
           else if isinstance e RequestException then
             outcomes es = [ErrorMessage RequestFailure]
           else if isinstance e Exception then
             outcomes es = [ErrorMessage UnexpectedFailure]
           else outcomes es = [] /\ res = inr e
       | inl _ =>
           outcomes es = [ResultText; RawView]
           \/ outcomes es = [ErrorMessage RequestFailure]
           \/ outcomes es = [ErrorMessage UnexpectedFailure]
       end.
Proof.
  unfold get_answer, bind, try_except, requests_post, request, st, modify.
  cbn -[lit app handle raise_for_status response_json get isinstance].
  change {| method := POST; url := u ++ lit "/predict";
            json_payload := Some (JObj [(lit "query", JStr q)]);
            timeout := 300 |} with (predict_request u q).
  destruct (send (predict_request u q)) as [response|e].
  - unfold raise_for_status, raise, ret.
    destruct ((400 <=? status_code response) && (status_code response <? 500))%N;
      [solve_get_answer|].
    destruct ((500 <=? status_code response) && (status_code response <? 600))%N;
      [solve_get_answer|].
    unfold response_json, raise, ret.
    destruct (decoded response) as [result|message]; [|solve_get_answer].
    unfold get at 1.
    destruct result as [| | | | | |members]; try solve_get_answer.
    unfold ret.
    destruct (match lookup (lit "output") members with
              | Some x => x
              | None => JObj []
              end) as [| | | | | |output]; solve_get_answer.
  - unfold handle, except, st, modify.
    destruct (isinstance e Timeout); [solve_get_answer|].
    destruct (isinstance e ConnectionError); [solve_get_answer|].
    destruct (isinstance e RequestException); [solve_get_answer|].
    destruct (isinstance e Exception); solve_get_answer.
Qed.

(** The health check of a run leaves the page empty and sends no
    [POST]. *)
Lemma check_from_start (u : str) (cache : list (str * bool)) :
  exists v p1,
    check_server_health send u (start cache) = (inl v, p1)
    /\ rendered p1 = []
    /\ existsb is_post (sent p1) = false.
Proof.
  destruct (check_server_health_cases u (start cache)) as [[v H]|[v H]];
    exists v; eexists; (split; [exact H|]); split; reflexivity.
Qed.

(** A run whose query is blank sends no [POST], online or not. *)
Lemma run_blank_no_post (inputs : Inputs) (cache : list (str * bool)) :
  strip (text_area_value inputs) = [] ->
  existsb is_post (sent (snd (run send inputs cache))) = false.
Proof.
  intros Hq. unfold run.
  destruct (check_from_start (text_input_value inputs) cache)
    as (v & p1 & H & _ & Hsent).
  destruct v.
  - destruct (script_online inputs _ H) as (form & _ & Hs). rewrite Hs.
    destruct (process_query_blank (text_input_value inputs)
                (text_area_value inputs) (button_clicked inputs)
                (drawn p1 form) Hq)
      as (es & _ & Hp).
    rewrite Hp. exact Hsent.
  - destruct (script_offline inputs _ H) as (e83 & e84 & _ & _ & Hs).
    rewrite Hs. exact Hsent.
Qed.

(** A run that is online, with the button pressed and a query that is not
    blank, shows what the request for a prediction leads to, and nothing
    else that is an outcome. *)
Lemma run_submitted (inputs : Inputs) (cache : list (str * bool)) :
  let u := text_input_value inputs in
  let q := text_area_value inputs in
  fst (check_server_health send u (start cache)) = inl true ->
  button_clicked inputs = true ->
  truthy (strip q) = true ->
  exists es,
    outcomes (rendered (snd (run send inputs cache))) = outcomes es
    /\ (forall x, In x es -> In x (rendered (snd (run send inputs cache))))
    /\ match send (predict_request u q) with
       | inr e =>
           if isinstance e Timeout then
             outcomes es = [ErrorMessage TimeoutError]
             /\ In timeout_message es
           else if isinstance e ConnectionError then
             outcomes es = [ErrorMessage ConnectionFailure]
           else if isinstance e RequestException then
             outcomes es = [ErrorMessage RequestFailure]
           else if isinstance e Exception then
             outcomes es = [ErrorMessage UnexpectedFailure]
           else outcomes es = [] /\ fst (run send inputs cache) = inr e
       | inl _ =>
           outcomes es = [ResultText; RawView]
           \/ outcomes es = [ErrorMessage RequestFailure]
           \/ outcomes es = [ErrorMessage UnexpectedFailure]
       end.
Proof.
  intros u q Hon Hclick Hq. unfold run.
  destruct (check_from_start u cache) as (v & p1 & H & Hr & _).
  fold u in Hon. rewrite H in Hon. cbn [fst] in Hon.
  injection Hon as ->.
  destruct (script_online inputs _ H) as (form & Hform & Hs). rewrite Hs.
  unfold process_query. fold q. rewrite Hclick, (truthy_strip q Hq), Hq.
  cbn [andb negb].
  destruct (get_answer_cases (text_input_value inputs) q (drawn p1 form))
    as (res & es & Hg & Hcases).
  rewrite Hg. exists es. cbn [snd fst drawn requested rendered].
  rewrite Hr. cbn [app]. split; [|split].
  - rewrite outcomes_app, Hform. reflexivity.
  - intros x Hx. apply in_or_app. right. exact Hx.
  - exact Hcases.
Qed.

(** C5: a run whose query is empty or holds only whitespace sends no
    [POST] to the backend, whatever the other inputs and the network. *)
Theorem blank_query_sends_no_request (inputs : Inputs)
    (cache : list (str * bool)) :
  forallb isspace (text_area_value inputs) = true ->
  existsb is_post (sent (snd (run send inputs cache))) = false.
Proof.
  intros H. apply run_blank_no_post. apply strip_spaces. exact H.
Qed.

(** C6: when the request for a prediction ends in a timeout, the run shows
    the timeout message and nothing else that is an outcome: no message of
    another category, no result text and no raw view. *)
Theorem timeout_reported (inputs : Inputs) (cache : list (str * bool))
    (e : PyExc) :
  let u := text_input_value inputs in
  let q := text_area_value inputs in
  fst (check_server_health send u (start cache)) = inl true ->
  button_clicked inputs = true ->
  truthy (strip q) = true ->
  send (predict_request u q) = inr e ->
  isinstance e Timeout = true ->
  outcomes (rendered (snd (run send inputs cache))) = [ErrorMessage TimeoutError]
  /\ In timeout_message (rendered (snd (run send inputs cache))).
Proof.
  intros u q Hon Hclick Hq Hsend He.
  destruct (run_submitted inputs cache Hon Hclick Hq) as (es & Ho & Hin & Hc).
  fold u q in Hc. rewrite Hsend, He in Hc. destruct Hc as [Hes Ht].
  split.
  - rewrite Ho. exact Hes.
  - apply Hin. exact Ht.
Qed.

(** C7: when the health check reports the server offline, the run draws the
    offline badge and stops there: no button is drawn and no [POST] is
    sent, whatever the inputs. *)
Theorem offline_blocks_submission (inputs : Inputs)
    (cache : list (str * bool)) :
  fst (check_server_health send (text_input_value inputs) (start cache))
    = inl false ->
  fst (run send inputs cache)
    = inr {| exc_class := StopException; exc_str := [] |}
  /\ In offline_badge (rendered (snd (run send inputs cache)))
  /\ existsb is_button (rendered (snd (run send inputs cache))) = false
  /\ existsb is_post (sent (snd (run send inputs cache))) = false.
Proof.
  intros Hoff. unfold run.
  destruct (check_from_start (text_input_value inputs) cache)
    as (v & p1 & H & Hr & Hsent).
  rewrite H in Hoff. cbn [fst] in Hoff. injection Hoff as ->.
  destruct (script_offline inputs _ H) as (e83 & e84 & H83 & H84 & Hs).
  rewrite Hs. cbn [fst snd drawn rendered sent]. rewrite Hr. cbn [app].
  repeat split.
  - left. reflexivity.
  - cbn [existsb]. rewrite H83, H84. reflexivity.
  - exact Hsent.
Qed.

(** C8, amended: for a submitted query whose request is answered, or fails
    with an instance of [Exception], the run shows either the result text
    together with the raw view, or one error message of one category, and
    never a result with an error. *)
Theorem one_kind_of_outcome (inputs : Inputs) (cache : list (str * bool)) :
  let u := text_input_value inputs in
  let q := text_area_value inputs in
  fst (check_server_health send u (start cache)) = inl true ->
  button_clicked inputs = true ->
  truthy (strip q) = true ->
  (forall e, send (predict_request u q) = inr e ->
             isinstance e Exception = true) ->
  outcomes (rendered (snd (run send inputs cache))) = [ResultText; RawView]
  \/ exists c,
       outcomes (rendered (snd (run send inputs cache))) = [ErrorMessage c].
Proof.
  intros u q Hon Hclick Hq Hexc.
  destruct (run_submitted inputs cache Hon Hclick Hq) as (es & Ho & _ & Hc).
  fold u q in Hc. rewrite Ho.
  destruct (send (predict_request u q)) as [response|e].
  - destruct Hc as [Hc|[Hc|Hc]]; rewrite Hc; eauto.
  - rewrite (Hexc e eq_refl) in Hc.
    destruct (isinstance e Timeout); [destruct Hc as [Hc _]; rewrite Hc; eauto|].
    destruct (isinstance e ConnectionError); [rewrite Hc; eauto|].
    destruct (isinstance e RequestException); rewrite Hc; eauto.
Qed.

End Facts.

Lemma blank_query_sends_no_request_witness :
  let inputs := {| text_input_value := localhost;
                   text_area_value := [32%N; 9%N; 10%N; 160%N; 8195%N];
                   button_clicked := true |} in
  let send := server_up (inl (ok localhost (inl JNull))) in
  forallb isspace (text_area_value inputs) = true
  /\ existsb is_post (sent (snd (run send inputs []))) = false.
Proof.
  intros inputs send.
  assert (H : forallb isspace (text_area_value inputs) = true) by reflexivity.
  split; [exact H|].
  exact (blank_query_sends_no_request send inputs [] H).
Defined.

Lemma timeout_reported_witness :
  let inputs := {| text_input_value := localhost;
                   text_area_value := lit "What is artificial intelligence?";
                   button_clicked := true |} in
  let e := {| exc_class := ConnectTimeout; exc_str := lit "timed out" |} in
  let send := server_up (inr e) in
  (fst (check_server_health send localhost (start [])) = inl true
   /\ button_clicked inputs = true
   /\ truthy (strip (text_area_value inputs)) = true
   /\ send (predict_request localhost (text_area_value inputs)) = inr e
   /\ isinstance e Timeout = true
   /\ isinstance e ConnectionError = true)
  /\ outcomes (rendered (snd (run send inputs []))) = [ErrorMessage TimeoutError]
  /\ In timeout_message (rendered (snd (run send inputs []))).
Proof.
  intros inputs e send.
  assert (Hon : fst (check_server_health send (text_input_value inputs)
                       (start [])) = inl true) by reflexivity.
  assert (Hclick : button_clicked inputs = true) by reflexivity.
  assert (Hq : truthy (strip (text_area_value inputs)) = true) by reflexivity.
  assert (Hsend : send (predict_request (text_input_value inputs)
                          (text_area_value inputs)) = inr e) by reflexivity.
  assert (He : isinstance e Timeout = true) by reflexivity.
  split; [repeat split; assumption || reflexivity|].
  exact (timeout_reported send inputs [] Hon Hclick Hq Hsend He).
Defined.

Lemma offline_blocks_submission_witness :
  let inputs := {| text_input_value := localhost;
                   text_area_value := lit "What is artificial intelligence?";
                   button_clicked := true |} in
  fst (check_server_health server_down localhost (start [])) = inl false
  /\ fst (run server_down inputs [])
       = inr {| exc_class := StopException; exc_str := [] |}
  /\ In offline_badge (rendered (snd (run server_down inputs [])))
  /\ existsb is_button (rendered (snd (run server_down inputs []))) = false
  /\ existsb is_post (sent (snd (run server_down inputs []))) = false.
Proof.
  intros inputs.
  assert (H : fst (check_server_health server_down (text_input_value inputs)
                     (start [])) = inl false) by reflexivity.
  split; [exact H|].
  exact (offline_blocks_submission server_down inputs [] H).
Defined.

Lemma one_kind_of_outcome_witness :
  let inputs := {| text_input_value := localhost;
                   text_area_value := lit "Capital of France?";
                   button_clicked := true |} in
  let e := {| exc_class := ConnectionError; exc_str := lit "reset" |} in
  let send := server_up (inr e) in
  (fst (check_server_health send localhost (start [])) = inl true
   /\ button_clicked inputs = true
   /\ truthy (strip (text_area_value inputs)) = true
   /\ forall e', send (predict_request localhost (text_area_value inputs))
                   = inr e' -> isinstance e' Exception = true)
  /\ (outcomes (rendered (snd (run send inputs []))) = [ResultText; RawView]
      \/ exists c,
           outcomes (rendered (snd (run send inputs []))) = [ErrorMessage c]).
Proof.
  intros inputs e send.
  assert (Hon : fst (check_server_health send (text_input_value inputs)
                       (start [])) = inl true) by reflexivity.
  assert (Hclick : button_clicked inputs = true) by reflexivity.
  assert (Hq : truthy (strip (text_area_value inputs)) = true) by reflexivity.
  assert (Hexc : forall e', send (predict_request (text_input_value inputs)
                                    (text_area_value inputs)) = inr e' ->
                            isinstance e' Exception = true).
  { intros e' He'. injection He' as <-. reflexivity. }
  split; [repeat split; assumption|].
  exact (one_kind_of_outcome send inputs [] Hon Hclick Hq Hexc).
Defined.

(** C8 as stated fails: an answered request shows the result text and the
    raw view, two of the three outcomes, in one run. *)
Lemma result_and_raw_view_together :
  let inputs := {| text_input_value := localhost;
                   text_area_value := lit "Capital of France?";
                   button_clicked := true |} in
  let send := server_up (inl (ok (localhost ++ lit "/predict") (inl paris))) in
  outcomes (rendered (snd (run send inputs []))) = [ResultText; RawView]
  /\ In {| line := 125; widget := markdown (JStr (lit "Paris")) false |}
        (rendered (snd (run send inputs [])))
  /\ In {| line := 130; widget := json_view paris |}
        (rendered (snd (run send inputs []))).
Proof.
  intros inputs send. vm_compute. auto 20.
Qed.

End FrontEndFacts.

(** ** The two together *)

Module ContractFacts.

Import Server.


End ContractFacts.

(** ** More on strings *)

Module StringFacts.

Lemma eqb_refl (s : str) : PyStr.eqb s s = true.
Proof.
  induction s as [|c s IH]; simpl; [reflexivity|].
  rewrite N.eqb_refl. exact IH.
Qed.

Lemma forallb_rev {A} (f : A -> bool) (l : list A) :
  forallb f (rev l) = forallb f l.
Proof.
  induction l as [|a l IH]; simpl; [reflexivity|].
  rewrite forallb_app, IH. simpl. rewrite andb_true_r. apply andb_comm.
Qed.

Lemma lstrip_spaces_inv (s : str) :
  forallb isspace (lstrip s) = true -> forallb isspace s = true.
Proof.
  induction s as [|c s IH]; simpl; [reflexivity|].
  destruct (isspace c) eqn:Hc.
  - intros H. exact (IH H).
  - simpl. rewrite Hc. discriminate.
Qed.

(** [strip] leaves nothing only of a string of whitespace. *)
Lemma strip_nil_spaces (s : str) :
  strip s = [] -> forallb isspace s = true.
Proof.
  unfold strip, rstrip. intros H.
  apply (f_equal (@rev char)) in H. rewrite rev_involutive in H. simpl in H.
  apply lstrip_spaces_inv.
  rewrite <- forallb_rev.
  apply lstrip_spaces_inv. rewrite H. reflexivity.
Qed.

Lemma strip_truthy (s : str) :
  truthy (strip s) = negb (forallb isspace s).
Proof.
  destruct (forallb isspace s) eqn:H.
  - rewrite (strip_spaces s H). reflexivity.
  - destruct (strip s) eqn:Hs; [|reflexivity].
    rewrite (strip_nil_spaces s Hs) in H. discriminate.
Qed.

End StringFacts.

(** ** The status check *)

Module StatusFacts.

Import FrontEnd.

Section Facts.

Variable send : HttpRequest -> HttpResponse + PyExc.

(** The status check never raises, whatever the network does: a stored
    value is returned as it is, and without one the server is online
    exactly when [/health] is answered with status 200; any other status
    and any exception, those outside [Exception] included, mean offline. *)
Theorem check_server_health_value (u : str) (p : Page) :
  fst (check_server_health send u p) =
    inl match cached u (health_cache p) with
        | Some v => v
        | None =>
            match send (health_request u) with
            | inl r => (status_code r =? 200)%N
            | inr _ => false
            end
        end.
Proof.
  unfold check_server_health, cache_data.
  destruct (cached u (health_cache p)) as [v|]; [reflexivity|].
  unfold try_except, bind, requests_get, request.
  change {| method := GET; url := u ++ lit "/health"; json_payload := None;
            timeout := 2 |} with (health_request u).
  destruct (send (health_request u)) as [r|e]; [reflexivity|].
  unfold handle, except. rewrite isinstance_BaseException. reflexivity.
Qed.

End Facts.

(** A second status check of the same URL, on the page the first one left,
    gives the same value and leaves the page as it is: it sends nothing,
    whatever the network has become. *)
Theorem check_server_health_cached
    (send send' : HttpRequest -> HttpResponse + PyExc) (u : str) (p : Page) :
  check_server_health send' u (snd (check_server_health send u p)) =
    (fst (check_server_health send u p), snd (check_server_health send u p)).
Proof.
  unfold check_server_health, cache_data.
  destruct (cached u (health_cache p)) as [v|] eqn:Hc.
  - cbn [snd fst]. rewrite Hc. reflexivity.
  - unfold try_except, bind, requests_get, request.
    destruct (send _) as [r|e].
    + unfold ret. cbn -[lit app PyStr.eqb]. rewrite StringFacts.eqb_refl.
      reflexivity.
    + unfold handle, except. rewrite isinstance_BaseException.
      unfold ret. cbn -[lit app PyStr.eqb]. rewrite StringFacts.eqb_refl.
      reflexivity.
Qed.

(** A stored "offline" for the URL stops the run before anything is sent,
    even when the server would answer: the run draws the offline badge, and
    sends no request at all. *)
Theorem stale_offline_blocks
    (send : HttpRequest -> HttpResponse + PyExc) (inputs : Inputs)
    (cache : list (str * bool)) :
  cached (text_input_value inputs) cache = Some false ->
  fst (run send inputs cache)
    = inr {| exc_class := StopException; exc_str := [] |}
  /\ sent (snd (run send inputs cache)) = []
  /\ In offline_badge (rendered (snd (run send inputs cache))).
Proof.
  intros Hc.
  assert (H : check_server_health send (text_input_value inputs) (start cache)
              = (inl false, start cache)).
  { unfold check_server_health, cache_data. cbn [start health_cache].
    rewrite Hc. reflexivity. }
  unfold run.
  destruct (FrontEndFacts.script_offline send inputs _ H)
    as (e83 & e84 & _ & _ & Hs).
  rewrite Hs. cbn. auto.
Qed.

Lemma stale_offline_blocks_witness :
  let inputs := {| text_input_value := localhost;
                   text_area_value := lit "What is artificial intelligence?";
                   button_clicked := true |} in
  let send := server_up (inl (ok (localhost ++ lit "/predict") (inl paris))) in
  let cache := [(localhost, false)] in
  cached (text_input_value inputs) cache = Some false
  /\ fst (run send inputs cache)
      = inr {| exc_class := StopException; exc_str := [] |}
  /\ sent (snd (run send inputs cache)) = []
  /\ In offline_badge (rendered (snd (run send inputs cache))).
Proof.
  intros inputs send cache.
  assert (H : cached (text_input_value inputs) cache = Some false)
    by reflexivity.
  split; [exact H|].
  exact (stale_offline_blocks send inputs cache H).
Defined.

End StatusFacts.

(** ** The request for a prediction and what is shown for it *)

Module SubmissionFacts.

Import FrontEnd.

#[local] Arguments lit : simpl never.
#[local] Arguments of_N : simpl never.

(** Brings [get_answer] to the point where the request has been sent. *)
Ltac open_get_answer :=
  unfold get_answer, bind, try_except, requests_post, request, st, modify;
  cbn -[lit of_N app handle raise_for_status response_json get isinstance];
  match goal with
  | |- context [{| method := POST; url := ?u ++ lit "/predict";
                   json_payload := Some (JObj [(lit "query", JStr ?q)]);
                   timeout := 300 |}] =>
      change {| method := POST; url := u ++ lit "/predict";
                json_payload := Some (JObj [(lit "query", JStr q)]);
                timeout := 300 |} with (predict_request u q)
  end.

(** Puts the page reached in the shape of [drawn] and [requested]. *)
Ltac close_get_answer :=
  unfold drawn, requested, ret, raise, handle, except, st, modify, bind;
  cbn -[lit of_N app isinstance];
  rewrite <- ?app_assoc; cbn [app]; reflexivity.

Lemma status_tests (c : N) :
  ((400 <=? c) && (c <? 600))%N =
  (((400 <=? c) && (c <? 500)) || ((500 <=? c) && (c <? 600)))%N.
Proof.
  destruct (N.leb_spec 400 c), (N.ltb_spec c 600), (N.ltb_spec c 500),
    (N.leb_spec 500 c); simpl; try reflexivity; lia.
Qed.

Section Facts.

Variable send : HttpRequest -> HttpResponse + PyExc.

(** A run that submits is the request for a prediction made on a page that
    shows no outcome yet and has at most the status check behind it. *)
Lemma run_reaches_request (inputs : Inputs) (cache : list (str * bool)) :
  submitted send inputs cache ->
  exists p0,
    run send inputs cache =
      get_answer send (text_input_value inputs) (text_area_value inputs) p0
    /\ outcomes (rendered p0) = []
    /\ (sent p0 = [] \/ sent p0 = [health_request (text_input_value inputs)]).
Proof.
  intros (Hon & Hclick & Hq). unfold run.
  destruct (FrontEndFacts.check_server_health_cases send
              (text_input_value inputs) (start cache)) as [[v H]|[v H]];
    rewrite H in Hon; cbn [fst] in Hon; injection Hon as ->;
    destruct (FrontEndFacts.script_online send inputs _ H)
      as (form & Hform & Hs);
    rewrite Hs; unfold process_query;
    rewrite Hclick, (FrontEndFacts.truthy_strip _ Hq), Hq; cbn [andb negb];
    eexists; (split; [reflexivity|]); cbn [drawn rendered sent start app];
    (split; [exact Hform|]); auto.
Qed.

(** What [get_answer] does when the request raises. *)
Lemma get_answer_raised (u q : str) (p : Page) (e : PyExc) :
  send (predict_request u q) = inr e ->
  get_answer send u q p =
    let p' := requested p (predict_request u q) in
    if isinstance e Timeout then
      (inl tt, drawn p' [spinner_element; timeout_message])
    else if isinstance e ConnectionError then
      (inl tt, drawn p' [spinner_element; connection_message])
    else if isinstance e RequestException then
      (inl tt, drawn p' [spinner_element; request_error (exc_str e)])
    else if isinstance e Exception then
      (inl tt, drawn p' [spinner_element; unexpected_error (exc_str e)])
    else (inr e, drawn p' [spinner_element]).
Proof.
  intros H. open_get_answer. rewrite H.
  unfold handle, except.
  destruct (isinstance e Timeout); [close_get_answer|].
  destruct (isinstance e ConnectionError); [close_get_answer|].
  destruct (isinstance e RequestException); [close_get_answer|].
  destruct (isinstance e Exception); close_get_answer.
Qed.

(** What [get_answer] does with a response of an error status. *)
Lemma get_answer_http_error (u q : str) (p : Page) (r : HttpResponse) :
  send (predict_request u q) = inl r ->
  ((400 <=? status_code r) && (status_code r <? 600))%N = true ->
  get_answer send u q p =
    (inl tt, drawn (requested p (predict_request u q))
               [spinner_element; request_error (http_error_text r)]).
Proof.
  intros H Hc. open_get_answer. rewrite H.
  rewrite status_tests in Hc.
  unfold raise_for_status, http_error_text.
  destruct ((400 <=? status_code r) && (status_code r <? 500))%N eqn:H4.
  - apply andb_prop in H4 as [_ H4]. rewrite H4.
    unfold raise. cbn -[lit of_N app isinstance].
    FrontEndFacts.class_tests. close_get_answer.
  - cbn [orb] in Hc. rewrite Hc.
    apply andb_prop in Hc as [H5 _].
    assert (Hlt : (status_code r <? 500)%N = false).
    { apply N.ltb_ge. apply N.leb_le. exact H5. }
    rewrite Hlt.
    unfold raise. cbn -[lit of_N app isinstance].
    FrontEndFacts.class_tests. close_get_answer.
Qed.

(** What [get_answer] does with a response that passes the status test. *)
Lemma get_answer_passed (u q : str) (p : Page) (r : HttpResponse) :
  send (predict_request u q) = inl r ->
  ((400 <=? status_code r) && (status_code r <? 600))%N = false ->
  get_answer send u q p =
    let p' := requested p (predict_request u q) in
    match decoded r with
    | inr message =>
        (inl tt, drawn p' [spinner_element; request_error message])
    | inl result =>
        match result with
        | JObj members =>
            match match lookup (lit "output") members with
                  | Some x => x
                  | None => JObj []
                  end with
            | JObj output =>
                (inl tt,
                 drawn p'
                   (spinner_element
                    :: response_view
                         match lookup (lit "raw") output with
                         | Some x => x
                         | None => JStr (lit "No response received")
                         end
                         result))
            | v =>
                (inl tt,
                 drawn p' [spinner_element;
                           unexpected_error (no_attribute_get v)])
            end
        | v =>
            (inl tt,
             drawn p' [spinner_element; unexpected_error (no_attribute_get v)])
        end
    end.
Proof.
  intros H Hc. open_get_answer. rewrite H.
  rewrite status_tests in Hc. apply orb_false_elim in Hc as [H4 H5].
  unfold raise_for_status. rewrite H4, H5.
  unfold response_json, ret.
  destruct (decoded r) as [result|message].
  2: { unfold raise. cbn -[lit of_N app isinstance].
       FrontEndFacts.class_tests. close_get_answer. }
  unfold get at 1.
  destruct result as [| | | | | |members];
    try (unfold raise; cbn -[lit of_N app isinstance];
         FrontEndFacts.class_tests; close_get_answer).
  unfold ret.
  destruct (match lookup (lit "output") members with
            | Some x => x
            | None => JObj []
            end) as [| | | | | |output];
    unfold get, raise, ret; cbn -[lit of_N app isinstance];
    FrontEndFacts.class_tests; close_get_answer.
Qed.

(** The outcome part of a run that submits, from what [get_answer] gives. *)
Lemma run_shows (inputs : Inputs) (cache : list (str * bool))
    (res : unit + PyExc) (es : list Element) :
  submitted send inputs cache ->
  (forall p, get_answer send (text_input_value inputs)
               (text_area_value inputs) p =
             (res, drawn (requested p (prediction_of inputs))
                     (spinner_element :: es))) ->
  fst (run send inputs cache) = res
  /\ outcomes (rendered (snd (run send inputs cache))) = outcomes es
  /\ exists before,
       rendered (snd (run send inputs cache)) = before ++ es
       /\ outcomes before = [].
Proof.
  intros Hsub Hg.
  destruct (run_reaches_request Hsub) as (p0 & Hrun & Hout & _).
  rewrite Hrun, Hg. cbn [fst snd drawn requested rendered].
  split; [reflexivity|]. split.
  - rewrite FrontEndFacts.outcomes_app, Hout. reflexivity.
  - exists (rendered p0 ++ [spinner_element]). split.
    + rewrite <- app_assoc. reflexivity.
    + rewrite FrontEndFacts.outcomes_app, Hout. reflexivity.
Qed.

(** A run sends a [POST] exactly when the server is found online, the
    button is pressed and the query holds a character that is no
    whitespace. *)
Theorem post_sent_exactly_when (inputs : Inputs) (cache : list (str * bool)) :
  existsb is_post (sent (snd (run send inputs cache))) =
    is_online send inputs cache
    && button_clicked inputs
    && negb (forallb isspace (text_area_value inputs)).
Proof.
  unfold is_online, run.
  destruct (FrontEndFacts.check_from_start send (text_input_value inputs) cache)
    as (v & p1 & H & _ & Hsent).
  rewrite H. cbn [fst]. destruct v.
  - destruct (FrontEndFacts.script_online send inputs _ H) as (form & _ & Hs).
    rewrite Hs. rewrite <- StringFacts.strip_truthy. unfold process_query.
    destruct (truthy (strip (text_area_value inputs))) eqn:Hq.
    + rewrite (FrontEndFacts.truthy_strip _ Hq).
      destruct (button_clicked inputs); cbn [andb negb].
      * destruct (FrontEndFacts.get_answer_cases send (text_input_value inputs)
                    (text_area_value inputs) (drawn p1 form))
          as (res & es & Hg & _).
        rewrite Hg. cbn [snd drawn requested sent].
        rewrite existsb_app. cbn. apply orb_true_r.
      * exact Hsent.
    + rewrite andb_false_r.
      destruct (button_clicked inputs && truthy (text_area_value inputs));
        cbn [negb]; exact Hsent.
  - destruct (FrontEndFacts.script_offline send inputs _ H)
      as (e83 & e84 & _ & _ & Hs).
    rewrite Hs. exact Hsent.
Qed.

(** A run that submits sends one [POST] and no more, whatever comes of it:
    to [/predict] under the URL given, with the query as it was typed, not
    stripped, and a timeout of 300 seconds. *)
Theorem one_post_as_typed (inputs : Inputs) (cache : list (str * bool)) :
  submitted send inputs cache ->
  filter is_post (sent (snd (run send inputs cache))) =
    [ {| method := POST;
         url := text_input_value inputs ++ lit "/predict";
         json_payload :=
           Some (JObj [(lit "query", JStr (text_area_value inputs))]);
         timeout := 300 |} ].
Proof.
  intros Hsub.
  destruct (run_reaches_request Hsub) as (p0 & Hrun & _ & Hsent).
  rewrite Hrun.
  destruct (FrontEndFacts.get_answer_cases send (text_input_value inputs)
              (text_area_value inputs) p0) as (res & es & Hg & _).
  rewrite Hg. cbn [snd drawn requested sent]. rewrite filter_app.
  destruct Hsent as [-> | ->]; reflexivity.
Qed.

(** With an empty query the button does nothing: the run is the one in
    which it is not pressed, with no warning and no request. *)
Theorem empty_query_ignores_button (u : str) (clicked : bool)
    (cache : list (str * bool)) :
  run send {| text_input_value := u; text_area_value := [];
              button_clicked := clicked |} cache =
  run send {| text_input_value := u; text_area_value := [];
              button_clicked := false |} cache.
Proof.
  unfold run, script, process_query.
  cbn [text_input_value text_area_value button_clicked truthy].
  rewrite andb_false_r. reflexivity.
Qed.

(** A query that is not empty and holds only whitespace draws the warning
    when the button is pressed, and no outcome. *)
Theorem blank_query_warned (inputs : Inputs) (cache : list (str * bool)) :
  fst (check_server_health send (text_input_value inputs) (start cache))
    = inl true ->
  button_clicked inputs = true ->
  text_area_value inputs <> [] ->
  forallb isspace (text_area_value inputs) = true ->
  fst (run send inputs cache) = inl tt
  /\ In warning_element (rendered (snd (run send inputs cache)))
  /\ outcomes (rendered (snd (run send inputs cache))) = [].
Proof.
  intros Hon Hclick Hne Hsp. unfold run.
  destruct (FrontEndFacts.check_from_start send (text_input_value inputs) cache)
    as (v & p1 & H & Hr & _).
  rewrite H in Hon. cbn [fst] in Hon. injection Hon as ->.
  destruct (FrontEndFacts.script_online send inputs _ H) as (form & Hform & Hs).
  rewrite Hs. unfold process_query.
  rewrite Hclick, (strip_spaces _ Hsp).
  destruct (text_area_value inputs) as [|c q]; [contradiction|].
  cbn [truthy andb negb]. unfold st, modify.
  cbn [fst snd rendered drawn]. rewrite Hr. cbn [app].
  split; [reflexivity|]. split.
  - apply in_or_app. right. left. reflexivity.
  - rewrite FrontEndFacts.outcomes_app, Hform. reflexivity.
Qed.

(** A response of status 400 to 599 draws the message of a request failure
    with the status, its phrase and the URL; the body is not looked at. *)
Theorem http_error_shown (inputs : Inputs) (cache : list (str * bool))
    (r : HttpResponse) :
  submitted send inputs cache ->
  send (prediction_of inputs) = inl r ->
  ((400 <=? status_code r) && (status_code r <? 600))%N = true ->
  fst (run send inputs cache) = inl tt
  /\ outcomes (rendered (snd (run send inputs cache)))
     = [ErrorMessage RequestFailure]
  /\ In (request_error (http_error_text r))
        (rendered (snd (run send inputs cache))).
Proof.
  intros Hsub Hsend Hc.
  destruct (run_shows (res := inl tt)
              (es := [request_error (http_error_text r)]) Hsub)
    as (Hres & Hout & before & Hr & _).
  { intros p. exact (@get_answer_http_error _ _ p _ Hsend Hc). }
  split; [exact Hres|]. split; [exact Hout|].
  rewrite Hr. apply in_or_app. right. left. reflexivity.
Qed.

(** A response whose body is no JSON draws the message of a request failure
    with the text of the decoding error. *)
Theorem undecodable_body_shown (inputs : Inputs) (cache : list (str * bool))
    (r : HttpResponse) (message : str) :
  submitted send inputs cache ->
  send (prediction_of inputs) = inl r ->
  ((400 <=? status_code r) && (status_code r <? 600))%N = false ->
  decoded r = inr message ->
  fst (run send inputs cache) = inl tt
  /\ outcomes (rendered (snd (run send inputs cache)))
     = [ErrorMessage RequestFailure]
  /\ In (request_error message) (rendered (snd (run send inputs cache))).
Proof.
  intros Hsub Hsend Hc Hd.
  destruct (run_shows (res := inl tt)
              (es := [request_error message]) Hsub)
    as (Hres & Hout & before & Hr & _).
  { intros p. rewrite (@get_answer_passed _ _ p _ Hsend Hc), Hd. reflexivity. }
  split; [exact Hres|]. split; [exact Hout|].
  rewrite Hr. apply in_or_app. right. left. reflexivity.
Qed.

(** A body that decodes to something else than an object draws the message
    of an unexpected failure and no result.  The message is the one of the
    missing [get], which names the type of the value: [list], [str], [int],
    [float], [bool] or [NoneType]. *)
Theorem not_an_object_shown (inputs : Inputs) (cache : list (str * bool))
    (r : HttpResponse) (v : json) :
  submitted send inputs cache ->
  send (prediction_of inputs) = inl r ->
  ((400 <=? status_code r) && (status_code r <? 600))%N = false ->
  decoded r = inl v ->
  is_dict v = false ->
  fst (run send inputs cache) = inl tt
  /\ outcomes (rendered (snd (run send inputs cache)))
     = [ErrorMessage UnexpectedFailure]
  /\ In (unexpected_error (no_attribute_get v))
        (rendered (snd (run send inputs cache))).
Proof.
  intros Hsub Hsend Hc Hd Hv.
  destruct (run_shows (res := inl tt)
              (es := [unexpected_error (no_attribute_get v)]) Hsub)
    as (Hres & Hout & before & Hr & _).
  { intros p. rewrite (@get_answer_passed _ _ p _ Hsend Hc), Hd.
    destruct v; try reflexivity; discriminate Hv. }
  split; [exact Hres|]. split; [exact Hout|].
  rewrite Hr. apply in_or_app. right. left. reflexivity.
Qed.

(** An object whose [output] is no object (a string, say, or a float) draws
    the message of an unexpected failure as well, with the type of that
    value in it, and no result. *)
Theorem output_not_an_object_shown (inputs : Inputs)
    (cache : list (str * bool)) (r : HttpResponse)
    (members : list (str * json)) (v : json) :
  submitted send inputs cache ->
  send (prediction_of inputs) = inl r ->
  ((400 <=? status_code r) && (status_code r <? 600))%N = false ->
  decoded r = inl (JObj members) ->
  lookup (lit "output") members = Some v ->
  is_dict v = false ->
  fst (run send inputs cache) = inl tt
  /\ outcomes (rendered (snd (run send inputs cache)))
     = [ErrorMessage UnexpectedFailure]
  /\ In (unexpected_error (no_attribute_get v))
        (rendered (snd (run send inputs cache))).
Proof.
  intros Hsub Hsend Hc Hd Hl Hv.
  destruct (run_shows (res := inl tt)
              (es := [unexpected_error (no_attribute_get v)]) Hsub)
    as (Hres & Hout & before & Hr & _).
  { intros p. rewrite (@get_answer_passed _ _ p _ Hsend Hc), Hd. cbv zeta.
    rewrite Hl. destruct v; try reflexivity; discriminate Hv. }
  split; [exact Hres|]. split; [exact Hout|].
  rewrite Hr. apply in_or_app. right. left. reflexivity.
Qed.


(** An object without [output], or whose [output] is an object without
    [raw], is shown as a result all the same, with the answer
    "No response received". *)
Theorem missing_key_default (inputs : Inputs) (cache : list (str * bool))
    (r : HttpResponse) (members : list (str * json)) :
  submitted send inputs cache ->
  send (prediction_of inputs) = inl r ->
  ((400 <=? status_code r) && (status_code r <? 600))%N = false ->
  decoded r = inl (JObj members) ->
  lookup (lit "output") members = None
  \/ (exists output,
        lookup (lit "output") members = Some (JObj output)
        /\ lookup (lit "raw") output = None) ->
  fst (run send inputs cache) = inl tt
  /\ outcomes (rendered (snd (run send inputs cache))) = [ResultText; RawView]
  /\ exists before,
       rendered (snd (run send inputs cache)) =
         before ++ response_view (JStr (lit "No response received"))
                     (JObj members)
       /\ outcomes before = [].
Proof.
  intros Hsub Hsend Hc Hd Hl.
  apply (run_shows (res := inl tt)
           (es := response_view (JStr (lit "No response received"))
                    (JObj members)) Hsub).
  intros p. rewrite (@get_answer_passed _ _ p _ Hsend Hc), Hd. cbv zeta.
  destruct Hl as [Hl | (output & Hl & Hraw)]; rewrite Hl.
  - reflexivity.
  - rewrite Hraw. reflexivity.
Qed.

(** A request that fails, not by a timeout, with an instance of
    [Exception] draws one message: the fixed one of a connection failure
    for a [ConnectionError], else the text of the exception as a request
    failure for a [RequestException], else as an unexpected failure. *)
Theorem failure_shown (inputs : Inputs) (cache : list (str * bool))
    (e : PyExc) :
  submitted send inputs cache ->
  send (prediction_of inputs) = inr e ->
  isinstance e Timeout = false ->
  isinstance e Exception = true ->
  fst (run send inputs cache) = inl tt
  /\ outcomes (rendered (snd (run send inputs cache))) =
       [ErrorMessage
          (if isinstance e ConnectionError then ConnectionFailure
           else if isinstance e RequestException then RequestFailure
           else UnexpectedFailure)]
  /\ In (if isinstance e ConnectionError then connection_message
         else if isinstance e RequestException then request_error (exc_str e)
         else unexpected_error (exc_str e))
        (rendered (snd (run send inputs cache))).
Proof.
  intros Hsub Hsend Ht He.
  destruct (run_shows
              (res := inl tt)
              (es := [if isinstance e ConnectionError then connection_message
                      else if isinstance e RequestException
                           then request_error (exc_str e)
                           else unexpected_error (exc_str e)]) Hsub)
    as (Hres & Hout & before & Hr & _).
  { intros p. rewrite (@get_answer_raised _ _ p _ Hsend), Ht, He. cbv zeta.
    destruct (isinstance e ConnectionError); [reflexivity|].
    destruct (isinstance e RequestException); reflexivity. }
  split; [exact Hres|]. split.
  - rewrite Hout. destruct (isinstance e ConnectionError); [reflexivity|].
    destruct (isinstance e RequestException); reflexivity.
  - rewrite Hr. apply in_or_app. right. left. reflexivity.
Qed.

(** An exception of the request that is no instance of [Exception] is not
    handled: it ends the run, and no outcome is drawn. *)
Theorem interrupt_propagates (inputs : Inputs) (cache : list (str * bool))
    (e : PyExc) :
  submitted send inputs cache ->
  send (prediction_of inputs) = inr e ->
  isinstance e Exception = false ->
  fst (run send inputs cache) = inr e
  /\ outcomes (rendered (snd (run send inputs cache))) = [].
Proof.
  intros Hsub Hsend He.
  assert (Hsub_class : forall c, issubclass c Exception = false ->
            issubclass c Timeout = false
            /\ issubclass c ConnectionError = false
            /\ issubclass c RequestException = false).
  { intros c; destruct c; vm_compute; intros H;
      try discriminate H; repeat split. }
  destruct (Hsub_class (exc_class e) He) as (Ht & Hcn & Hrq).
  destruct (run_shows (res := inr e) (es := []) Hsub)
    as (Hres & Hout & _).
  { intros p. rewrite (@get_answer_raised _ _ p _ Hsend).
    unfold isinstance in *. rewrite Ht, Hcn, Hrq, He. reflexivity. }
  split; [exact Hres | exact Hout].
Qed.

End Facts.

Lemma one_post_as_typed_witness :
  let send := server_up (inr {| exc_class := ReadTimeout; exc_str := [] |}) in
  let inputs := {| text_input_value := localhost;
                   text_area_value := lit "  Capital of France? ";
                   button_clicked := true |} in
  submitted send inputs []
  /\ filter is_post (sent (snd (run send inputs []))) =
       [ {| method := POST;
            url := localhost ++ lit "/predict";
            json_payload :=
              Some (JObj [(lit "query", JStr (lit "  Capital of France? "))]);
            timeout := 300 |} ].
Proof.
  intros send inputs.
  assert (Hsub : submitted send inputs []) by (unfold submitted; auto).
  split; [exact Hsub|].
  exact (one_post_as_typed Hsub).
Defined.

Lemma blank_query_warned_witness :
  let send := server_up (inl (ok localhost (inl paris))) in
  let inputs := {| text_input_value := localhost;
                   text_area_value := [32%N; 10%N];
                   button_clicked := true |} in
  (fst (check_server_health send (text_input_value inputs) (start []))
     = inl true
   /\ button_clicked inputs = true
   /\ text_area_value inputs <> []
   /\ forallb isspace (text_area_value inputs) = true)
  /\ fst (run send inputs []) = inl tt
  /\ In warning_element (rendered (snd (run send inputs [])))
  /\ outcomes (rendered (snd (run send inputs []))) = [].
Proof.
  intros send inputs.
  assert (H1 : fst (check_server_health send (text_input_value inputs)
                      (start [])) = inl true) by reflexivity.
  assert (H2 : button_clicked inputs = true) by reflexivity.
  assert (H3 : text_area_value inputs <> []) by discriminate.
  assert (H4 : forallb isspace (text_area_value inputs) = true) by reflexivity.
  split; [auto|].
  exact (blank_query_warned send inputs [] H1 H2 H3 H4).
Defined.

Lemma http_error_shown_witness :
  let r := {| status_code := 404; reason := lit "Not Found";
              response_url := localhost ++ lit "/predict";
              decoded := inl paris |} in
  let send := server_up (inl r) in
  (submitted send question []
   /\ send (prediction_of question) = inl r
   /\ ((400 <=? status_code r) && (status_code r <? 600))%N = true)
  /\ fst (run send question []) = inl tt
  /\ outcomes (rendered (snd (run send question [])))
     = [ErrorMessage RequestFailure]
  /\ In (request_error (http_error_text r))
        (rendered (snd (run send question []))).
Proof.
  intros r send.
  assert (Hsub : submitted send question []) by (unfold submitted; auto).
  assert (Hsend : send (prediction_of question) = inl r) by reflexivity.
  assert (Hc : ((400 <=? status_code r) && (status_code r <? 600))%N = true)
    by reflexivity.
  split; [auto|].
  exact (@http_error_shown send question [] r Hsub Hsend Hc).
Defined.

Lemma undecodable_body_shown_witness :
  let r := ok (localhost ++ lit "/predict") (inr (lit "Expecting value")) in
  let send := server_up (inl r) in
  (submitted send question []
   /\ send (prediction_of question) = inl r
   /\ ((400 <=? status_code r) && (status_code r <? 600))%N = false
   /\ decoded r = inr (lit "Expecting value"))
  /\ fst (run send question []) = inl tt
  /\ outcomes (rendered (snd (run send question [])))
     = [ErrorMessage RequestFailure]
  /\ In (request_error (lit "Expecting value"))
        (rendered (snd (run send question []))).
Proof.
  intros r send.
  assert (Hsub : submitted send question []) by (unfold submitted; auto).
  assert (Hsend : send (prediction_of question) = inl r) by reflexivity.
  assert (Hc : ((400 <=? status_code r) && (status_code r <? 600))%N = false)
    by reflexivity.
  assert (Hd : decoded r = inr (lit "Expecting value")) by reflexivity.
  split; [auto|].
  exact (@undecodable_body_shown send question [] r _ Hsub Hsend Hc Hd).
Defined.

Lemma not_an_object_shown_witness :
  let v := JFloat (lit "1.5") in
  let r := ok (localhost ++ lit "/predict") (inl v) in
  let send := server_up (inl r) in
  (submitted send question []
   /\ send (prediction_of question) = inl r
   /\ ((400 <=? status_code r) && (status_code r <? 600))%N = false
   /\ decoded r = inl v
   /\ is_dict v = false)
  /\ fst (run send question []) = inl tt
  /\ outcomes (rendered (snd (run send question [])))
     = [ErrorMessage UnexpectedFailure]
  /\ In (unexpected_error (lit "'float' object has no attribute 'get'"))
        (rendered (snd (run send question []))).
Proof.
  intros v r send.
  assert (Hsub : submitted send question []) by (unfold submitted; auto).
  assert (Hsend : send (prediction_of question) = inl r) by reflexivity.
  assert (Hc : ((400 <=? status_code r) && (status_code r <? 600))%N = false)
    by reflexivity.
  assert (Hd : decoded r = inl v) by reflexivity.
  assert (Hv : is_dict v = false) by reflexivity.
  split; [auto 6|].
  exact (@not_an_object_shown send question [] r v Hsub Hsend Hc Hd Hv).
Defined.

Lemma output_not_an_object_shown_witness :
  let members := [(lit "output", JStr (lit "Paris"))] in
  let r := ok (localhost ++ lit "/predict") (inl (JObj members)) in
  let send := server_up (inl r) in
  (submitted send question []
   /\ send (prediction_of question) = inl r
   /\ ((400 <=? status_code r) && (status_code r <? 600))%N = false
   /\ decoded r = inl (JObj members)
   /\ lookup (lit "output") members = Some (JStr (lit "Paris"))
   /\ is_dict (JStr (lit "Paris")) = false)
  /\ fst (run send question []) = inl tt
  /\ outcomes (rendered (snd (run send question [])))
     = [ErrorMessage UnexpectedFailure]
  /\ In (unexpected_error (lit "'str' object has no attribute 'get'"))
        (rendered (snd (run send question []))).
Proof.
  intros members r send.
  assert (Hsub : submitted send question []) by (unfold submitted; auto).
  assert (Hsend : send (prediction_of question) = inl r) by reflexivity.
  assert (Hc : ((400 <=? status_code r) && (status_code r <? 600))%N = false)
    by reflexivity.
  assert (Hd : decoded r = inl (JObj members)) by reflexivity.
  assert (Hl : lookup (lit "output") members = Some (JStr (lit "Paris")))
    by reflexivity.
  assert (Hv : is_dict (JStr (lit "Paris")) = false) by reflexivity.
  split; [auto 7|].
  exact (@output_not_an_object_shown send question [] r members _ Hsub Hsend Hc Hd Hl Hv).
Defined.


Lemma missing_key_default_witness :
  let members := [(lit "error", JStr (lit "model not found"))] in
  let r := ok (localhost ++ lit "/predict") (inl (JObj members)) in
  let send := server_up (inl r) in
  (submitted send question []
   /\ send (prediction_of question) = inl r
   /\ ((400 <=? status_code r) && (status_code r <? 600))%N = false
   /\ decoded r = inl (JObj members)
   /\ lookup (lit "output") members = None)
  /\ fst (run send question []) = inl tt
  /\ outcomes (rendered (snd (run send question []))) = [ResultText; RawView]
  /\ exists before,
       rendered (snd (run send question [])) =
         before ++ response_view (JStr (lit "No response received"))
                     (JObj members)
       /\ outcomes before = [].
Proof.
  intros members r send.
  assert (Hsub : submitted send question []) by (unfold submitted; auto).
  assert (Hsend : send (prediction_of question) = inl r) by reflexivity.
  assert (Hc : ((400 <=? status_code r) && (status_code r <? 600))%N = false)
    by reflexivity.
  assert (Hd : decoded r = inl (JObj members)) by reflexivity.
  assert (Hl : lookup (lit "output") members = None) by reflexivity.
  split; [auto 6|].
  exact (@missing_key_default send question [] r members Hsub Hsend Hc Hd (or_introl Hl)).
Defined.

Lemma failure_shown_witness :
  let e := {| exc_class := ConnectionError;
              exc_str := lit "Connection aborted." |} in
  let send := server_up (inr e) in
  (submitted send question []
   /\ send (prediction_of question) = inr e
   /\ isinstance e Timeout = false
   /\ isinstance e Exception = true)
  /\ fst (run send question []) = inl tt
  /\ outcomes (rendered (snd (run send question [])))
     = [ErrorMessage ConnectionFailure]
  /\ In connection_message (rendered (snd (run send question []))).
Proof.
  intros e send.
  assert (Hsub : submitted send question []) by (unfold submitted; auto).
  assert (Hsend : send (prediction_of question) = inr e) by reflexivity.
  assert (Ht : isinstance e Timeout = false) by reflexivity.
  assert (He : isinstance e Exception = true) by reflexivity.
  split; [auto|].
  exact (@failure_shown send question [] e Hsub Hsend Ht He).
Defined.

Lemma interrupt_propagates_witness :
  let e := {| exc_class := KeyboardInterrupt; exc_str := [] |} in
  let send := server_up (inr e) in
  (submitted send question []
   /\ send (prediction_of question) = inr e
   /\ isinstance e Exception = false)
  /\ fst (run send question []) = inr e
  /\ outcomes (rendered (snd (run send question []))) = [].
Proof.
  intros e send.
  assert (Hsub : submitted send question []) by (unfold submitted; auto).
  assert (Hsend : send (prediction_of question) = inr e) by reflexivity.
  assert (He : isinstance e Exception = false) by reflexivity.
  split; [auto|].
  exact (@interrupt_propagates send question [] e Hsub Hsend He).
Defined.

End SubmissionFacts.

(** ** The response of the server *)

Module EndpointFacts.

Import Server.

(** What [predict] answers, once the framework has taken the body of the
    request for a [QueryRequest] with a string [query], is one of two:
    status 200 with a body that holds [output.raw] alone, or status 500
    with a body that holds [error] alone; and when [predict] makes no
    response, the exception that ends the call is no instance of
    [Exception].  A body that is no [QueryRequest] does not reach
    [predict]. *)
Theorem predict_status_and_body
    (complete : World -> Completion -> str + PyExc) (q : str) (w : World) :
  match fst (POST_predict complete {| query := q |} w) with
  | inl r =>
      (status r = 200%N
       /\ exists s,
            body r = JObj [(lit "output", JObj [(lit "raw", JStr s)])])
      \/ (status r = 500%N
          /\ exists s, body r = JObj [(lit "error", JStr s)])
  | inr e => isinstance e Exception = false
  end.
Proof.
  unfold POST_predict, predict, bind, try_except. cbn [query].
  destruct (kickoff complete crew [(lit "query", q)] w) as [[result|e] w'].
  - cbn. left. split; [reflexivity|]. eexists. reflexivity.
  - unfold handle, except.
    destruct (isinstance e Exception) eqn:He.
    + cbn. right. split; [reflexivity|]. eexists. reflexivity.
    + cbn. exact He.
Qed.

End EndpointFacts.

(** ** The server and the front end together *)

Module RoundTripFacts.

Import FrontEnd.

Section Facts.

Variable complete : Server.World -> Server.Completion -> str + PyExc.
Variable send : HttpRequest -> HttpResponse + PyExc.

(** The answer survives the way from the server to the page: when the run
    of the crew succeeds and the response of [POST /predict] for the query
    is what the request of the front end receives, the page shows the text
    of the result as the answer and the body as the raw response. *)
Theorem answer_round_trip (inputs : Inputs) (cache : list (str * bool))
    (w w' : Server.World) (result : Server.CrewOutput) (r : Server.Response)
    (phrase u : str) :
  Server.kickoff complete Server.crew
    [(lit "query", text_area_value inputs)] w = (inl result, w') ->
  Server.POST_predict complete
    {| Server.query := text_area_value inputs |} w = (inl r, w') ->
  send (prediction_of inputs) = inl (delivered r phrase u) ->
  submitted send inputs cache ->
  fst (run send inputs cache) = inl tt
  /\ outcomes (rendered (snd (run send inputs cache))) = [ResultText; RawView]
  /\ exists before,
       rendered (snd (run send inputs cache)) =
         before
         ++ response_view (JStr (Server.CrewOutput_str result)) (Server.body r)
       /\ outcomes before = [].
Proof.
  intros Hk Hp Hsend Hsub.
  apply (SubmissionFacts.run_shows
           (res := inl tt)
           (es := response_view (JStr (Server.CrewOutput_str result))
                    (Server.body r)) Hsub).
  intros p.
  unfold Server.POST_predict, Server.predict, bind, try_except in Hp.
  cbn [Server.query] in Hp. rewrite Hk in Hp.
  cbn -[lit] in Hp. injection Hp as <-.
  rewrite (@SubmissionFacts.get_answer_passed send _ _ p _ Hsend eq_refl).
  reflexivity.
Qed.

(** A failure of the crew reaches the page as a request failure that names
    the status, not the cause: when the run of the crew raises an instance
    of [Exception] and the response of [POST /predict] is what the front
    end receives, the page shows the message of status 500, which the text
    of the exception is no part of. *)
Theorem backend_failure_shown (inputs : Inputs) (cache : list (str * bool))
    (w w' : Server.World) (e : PyExc) (r : Server.Response)
    (phrase u : str) :
  Server.kickoff complete Server.crew
    [(lit "query", text_area_value inputs)] w = (inr e, w') ->
  isinstance e Exception = true ->
  Server.POST_predict complete
    {| Server.query := text_area_value inputs |} w = (inl r, w') ->
  send (prediction_of inputs) = inl (delivered r phrase u) ->
  submitted send inputs cache ->
  fst (run send inputs cache) = inl tt
  /\ outcomes (rendered (snd (run send inputs cache)))
     = [ErrorMessage RequestFailure]
  /\ In (request_error
           (lit "500" ++ lit " Server Error: " ++ phrase
            ++ lit " for url: " ++ u))
        (rendered (snd (run send inputs cache))).
Proof.
  intros Hk He Hp Hsend Hsub.
  unfold Server.POST_predict, Server.predict, bind, try_except in Hp.
  cbn [Server.query] in Hp. rewrite Hk in Hp.
  unfold handle, except in Hp. rewrite He in Hp.
  cbn -[lit] in Hp. injection Hp as <-.
  destruct (SubmissionFacts.run_shows
              (res := inl tt)
              (es := [request_error
                        (lit "500" ++ lit " Server Error: " ++ phrase
                         ++ lit " for url: " ++ u)]) Hsub)
    as (Hres & Hout & before & Hr & _).
  { intros p.
    rewrite (@SubmissionFacts.get_answer_http_error send _ _ p _ Hsend eq_refl).
    reflexivity. }
  split; [exact Hres|]. split; [exact Hout|].
  rewrite Hr. apply in_or_app. right. left. reflexivity.
Qed.

End Facts.

Lemma answer_round_trip_witness :
  let complete := Server.answering (lit "Paris") in
  let q := text_area_value question in
  let R := Server.completion_of Server.researcher_task [(lit "query", q)] [] in
  let W := Server.completion_of Server.writer_task [(lit "query", q)]
             [lit "Paris"] in
  let result := {| Server.tasks_output := [lit "Paris"; lit "Paris"] |} in
  let r := {| Server.status := 200;
              Server.body := JObj [(lit "output",
                                    JObj [(lit "raw", JStr (lit "Paris"))])] |} in
  let send := server_up (inl (delivered r (lit "OK")
                                (localhost ++ lit "/predict"))) in
  (Server.kickoff complete Server.crew [(lit "query", q)] []
     = (inl result, [R; W])
   /\ Server.POST_predict complete {| Server.query := q |} [] = (inl r, [R; W])
   /\ send (prediction_of question)
      = inl (delivered r (lit "OK") (localhost ++ lit "/predict"))
   /\ submitted send question [])
  /\ fst (run send question []) = inl tt
  /\ outcomes (rendered (snd (run send question []))) = [ResultText; RawView]
  /\ exists before,
       rendered (snd (run send question [])) =
         before ++ response_view (JStr (lit "Paris")) (Server.body r)
       /\ outcomes before = [].
Proof.
  intros complete q R W result r send.
  assert (Hk : Server.kickoff complete Server.crew
                 [(lit "query", text_area_value question)] []
               = (inl result, [R; W])) by reflexivity.
  assert (Hp : Server.POST_predict complete
                 {| Server.query := text_area_value question |} []
               = (inl r, [R; W])) by reflexivity.
  assert (Hsend : send (prediction_of question)
                  = inl (delivered r (lit "OK") (localhost ++ lit "/predict")))
    by reflexivity.
  assert (Hsub : submitted send question []) by (unfold submitted; auto).
  split; [auto|].
  exact (@answer_round_trip complete send question [] [] [R; W] result r
           (lit "OK") (localhost ++ lit "/predict") Hk Hp Hsend Hsub).
Defined.

Lemma backend_failure_shown_witness :
  let e := {| exc_class := RuntimeError; exc_str := lit "model not found" |} in
  let complete := Server.failing e in
  let q := text_area_value question in
  let R := Server.completion_of Server.researcher_task [(lit "query", q)] [] in
  let r := {| Server.status := 500;
              Server.body := JObj [(lit "error",
                                    JStr (lit "model not found"))] |} in
  let u := localhost ++ lit "/predict" in
  let send := server_up (inl (delivered r (lit "Internal Server Error") u)) in
  (Server.kickoff complete Server.crew [(lit "query", q)] [] = (inr e, [R])
   /\ isinstance e Exception = true
   /\ Server.POST_predict complete {| Server.query := q |} [] = (inl r, [R])
   /\ send (prediction_of question)
      = inl (delivered r (lit "Internal Server Error") u)
   /\ submitted send question [])
  /\ fst (run send question []) = inl tt
  /\ outcomes (rendered (snd (run send question [])))
     = [ErrorMessage RequestFailure]
  /\ In (request_error
           (lit "500 Server Error: Internal Server Error for url: http://localhost:8000/predict"))
        (rendered (snd (run send question []))).
Proof.
  intros e complete q R r u send.
  assert (Hk : Server.kickoff complete Server.crew
                 [(lit "query", text_area_value question)] []
               = (inr e, [R])) by reflexivity.
  assert (He : isinstance e Exception = true) by reflexivity.
  assert (Hp : Server.POST_predict complete
                 {| Server.query := text_area_value question |} []
               = (inl r, [R])) by reflexivity.
  assert (Hsend : send (prediction_of question)
                  = inl (delivered r (lit "Internal Server Error") u))
    by reflexivity.
  assert (Hsub : submitted send question []) by (unfold submitted; auto).
  split; [auto 6|].
  exact (@backend_failure_shown complete send question [] [] [R] e r
           (lit "Internal Server Error") u Hk He Hp Hsend Hsub).
Defined.

End RoundTripFacts.
